(** * muse-js: the [MuseClient] session object of [src/muse.ts]

    A shallow embedding of the client class: its timestamp reconstruction
    ([getTimestamp]), the asynchronous [connect] / [start] command sequences and
    the synchronous [disconnect] and event handlers.

    Numbers.  JavaScript numbers are IEEE doubles.  Every number the class
    computes is either an integer (event indices, [Date.getTime()]) or a
    multiple of 1/8 ([READING_DELTA] is 46.875 = 375/8), and all of them stay
    far below 2^50 for real devices and clocks, a range in which double
    arithmetic on such values is exact.  Indices are therefore modelled in [Z]
    and timestamps in [Q]; arithmetic facts about timestamps are stated with
    [==] (equality of rationals). *)

From Equations Require Import Equations.
From Stdlib Require Import ZArith QArith Lia Lqa List String Bool.
From Stdlib Require Strings.Byte Sorting.Sorted.
Import ListNotations.

Set Implicit Arguments.
Open Scope string_scope.
Open Scope list_scope.
Open Scope Z_scope.

(** ** Constants of the module *)

Definition MUSE_SERVICE : Z := 0xfe8d.
Definition CONTROL_CHARACTERISTIC : string := "273e0001-4c4d-454d-96be-f03bac821358".
Definition TELEMETRY_CHARACTERISTIC : string := "273e000b-4c4d-454d-96be-f03bac821358".
Definition GYROSCOPE_CHARACTERISTIC : string := "273e0009-4c4d-454d-96be-f03bac821358".
Definition ACCELEROMETER_CHARACTERISTIC : string := "273e000a-4c4d-454d-96be-f03bac821358".
Definition EEG_CHARACTERISTICS : list string :=
  [ "273e0003-4c4d-454d-96be-f03bac821358";
    "273e0004-4c4d-454d-96be-f03bac821358";
    "273e0005-4c4d-454d-96be-f03bac821358";
    "273e0006-4c4d-454d-96be-f03bac821358";
    "273e0007-4c4d-454d-96be-f03bac821358" ].
Definition EEG_FREQUENCY : Z := 256.

Definition channelNames : list string := [ "TP9"; "AF7"; "AF8"; "TP10"; "AUX" ].

(** Local constants of [getTimestamp]. *)
Definition SAMPLES_PER_READING : Z := 12.
Definition READING_DELTA : Q :=
  (1000 * (1 / inject_Z EEG_FREQUENCY) * inject_Z SAMPLES_PER_READING)%Q.

(** ** Web Bluetooth handles held by the client *)

Record BluetoothDevice : Type := {
  device_id : nat;
  name : option string
}.

Record BluetoothRemoteGATTServer : Type := {
  device : BluetoothDevice
}.

Record BluetoothRemoteGATTService : Type := {
  service_server : BluetoothRemoteGATTServer;
  service_uuid : Z
}.

(** A characteristic handle is identified by the UUID it was obtained for. *)
Record BluetoothRemoteGATTCharacteristic : Type := {
  uuid : string
}.

(** An observable is identified by the characteristics whose notifications
    feed it ([Observable.merge] concatenates the sources). *)
Definition Observable : Type := list BluetoothRemoteGATTCharacteristic.

(** [BehaviorSubject]: the current value, and every value passed to [next]
    so far, oldest first. *)
Record BehaviorSubject (A : Type) : Type := {
  value : A;
  emitted : list A
}.

Definition newBehaviorSubject {A : Type} (a : A) : BehaviorSubject A :=
  {| value := a; emitted := [] |}.

Definition next {A : Type} (s : BehaviorSubject A) (a : A) : BehaviorSubject A :=
  {| value := a; emitted := emitted s ++ [a] |}.

(** ** The client object *)

Record MuseClient : Type := {
  gatt : option BluetoothRemoteGATTServer;
  controlChar : option BluetoothRemoteGATTCharacteristic;
  eegCharacteristics : list BluetoothRemoteGATTCharacteristic;
  enableAux : bool;
  deviceName : option string;
  connectionStatus : BehaviorSubject bool;
  rawControlData : option Observable;
  controlResponses : option Observable;
  telemetryData : option Observable;
  gyroscopeData : option Observable;
  accelerometerData : option Observable;
  eegReadings : option Observable;
  lastIndex : option Z;
  lastTimestamp : option Q
}.

(** Field initialisers of the class. *)
Definition newMuseClient : MuseClient := {|
  gatt := None;
  controlChar := None;
  eegCharacteristics := [];
  enableAux := false;
  deviceName := Some EmptyString;
  connectionStatus := newBehaviorSubject false;
  rawControlData := None;
  controlResponses := None;
  telemetryData := None;
  gyroscopeData := None;
  accelerometerData := None;
  eegReadings := None;
  lastIndex := None;
  lastTimestamp := None
|}.

(** Assignment to the two sequencing fields. *)
Definition set_sequence (c : MuseClient) (li : option Z) (lt : option Q) : MuseClient :=
  {| gatt := gatt c; controlChar := controlChar c;
     eegCharacteristics := eegCharacteristics c; enableAux := enableAux c;
     deviceName := deviceName c; connectionStatus := connectionStatus c;
     rawControlData := rawControlData c; controlResponses := controlResponses c;
     telemetryData := telemetryData c; gyroscopeData := gyroscopeData c;
     accelerometerData := accelerometerData c; eegReadings := eegReadings c;
     lastIndex := li; lastTimestamp := lt |}.

Definition set_gatt (c : MuseClient) (g : option BluetoothRemoteGATTServer) : MuseClient :=
  {| gatt := g; controlChar := controlChar c;
     eegCharacteristics := eegCharacteristics c; enableAux := enableAux c;
     deviceName := deviceName c; connectionStatus := connectionStatus c;
     rawControlData := rawControlData c; controlResponses := controlResponses c;
     telemetryData := telemetryData c; gyroscopeData := gyroscopeData c;
     accelerometerData := accelerometerData c; eegReadings := eegReadings c;
     lastIndex := lastIndex c; lastTimestamp := lastTimestamp c |}.

Definition set_connectionStatus (c : MuseClient) (s : BehaviorSubject bool) : MuseClient :=
  {| gatt := gatt c; controlChar := controlChar c;
     eegCharacteristics := eegCharacteristics c; enableAux := enableAux c;
     deviceName := deviceName c; connectionStatus := s;
     rawControlData := rawControlData c; controlResponses := controlResponses c;
     telemetryData := telemetryData c; gyroscopeData := gyroscopeData c;
     accelerometerData := accelerometerData c; eegReadings := eegReadings c;
     lastIndex := lastIndex c; lastTimestamp := lastTimestamp c |}.

(** ** [getTimestamp] *)

(** The wrap-around loop
    [while ((this.lastIndex - eventIndex) > 0x1000) eventIndex += 0x10000]. *)
Equations? unwrap (lastIndex eventIndex : Z) : Z
  by wf (Z.to_nat (lastIndex - eventIndex - 0x1000)) lt :=
  unwrap lastIndex eventIndex with Z_gt_dec (lastIndex - eventIndex) 0x1000 => {
    | left _ := unwrap lastIndex (eventIndex + 0x10000);
    | right _ := eventIndex }.
Proof. lia. Qed.

(** The same loop run for at most [fuel] iterations of its body: [None] when
    the loop condition still holds after [fuel] iterations. *)
Fixpoint unwrap_loop (fuel : nat) (lastIndex eventIndex : Z) : option Z :=
  if lastIndex - eventIndex >? 0x1000 then
    match fuel with
    | O => None
    | S fuel' => unwrap_loop fuel' lastIndex (eventIndex + 0x10000)
    end
  else Some eventIndex.

(** [getTimestamp now eventIndex c]: the returned timestamp and the client
    afterwards; [now] is the value of [new Date().getTime()]. *)
Definition getTimestamp (now : Z) (eventIndex : Z) (c : MuseClient) : Q * MuseClient :=
  let '(li, lt, c1) :=
    match lastIndex c, lastTimestamp c with
    | Some li, Some lt => (li, lt, c)
    | _, _ =>
        let lt := (inject_Z now - READING_DELTA)%Q in
        (eventIndex, lt, set_sequence c (Some eventIndex) (Some lt))
    end in
  let eventIndex := unwrap li eventIndex in
  if eventIndex =? li then (lt, c1)
  else if eventIndex >? li then
    let lt' := (lt + READING_DELTA * inject_Z (eventIndex - li))%Q in
    (lt', set_sequence c1 (Some eventIndex) (Some lt'))
  else ((lt - READING_DELTA * inject_Z (li - eventIndex))%Q, c1).

(** ** The remaining field assignments *)

Definition set_controlChar (c : MuseClient) (ch : option BluetoothRemoteGATTCharacteristic) : MuseClient :=
  {| gatt := gatt c; controlChar := ch;
     eegCharacteristics := eegCharacteristics c; enableAux := enableAux c;
     deviceName := deviceName c; connectionStatus := connectionStatus c;
     rawControlData := rawControlData c; controlResponses := controlResponses c;
     telemetryData := telemetryData c; gyroscopeData := gyroscopeData c;
     accelerometerData := accelerometerData c; eegReadings := eegReadings c;
     lastIndex := lastIndex c; lastTimestamp := lastTimestamp c |}.

Definition set_eegCharacteristics (c : MuseClient) (l : list BluetoothRemoteGATTCharacteristic) : MuseClient :=
  {| gatt := gatt c; controlChar := controlChar c;
     eegCharacteristics := l; enableAux := enableAux c;
     deviceName := deviceName c; connectionStatus := connectionStatus c;
     rawControlData := rawControlData c; controlResponses := controlResponses c;
     telemetryData := telemetryData c; gyroscopeData := gyroscopeData c;
     accelerometerData := accelerometerData c; eegReadings := eegReadings c;
     lastIndex := lastIndex c; lastTimestamp := lastTimestamp c |}.

Definition set_deviceName (c : MuseClient) (n : option string) : MuseClient :=
  {| gatt := gatt c; controlChar := controlChar c;
     eegCharacteristics := eegCharacteristics c; enableAux := enableAux c;
     deviceName := n; connectionStatus := connectionStatus c;
     rawControlData := rawControlData c; controlResponses := controlResponses c;
     telemetryData := telemetryData c; gyroscopeData := gyroscopeData c;
     accelerometerData := accelerometerData c; eegReadings := eegReadings c;
     lastIndex := lastIndex c; lastTimestamp := lastTimestamp c |}.

(** [this.rawControlData = ...; this.controlResponses = parseControl(this.rawControlData)] *)
Definition set_controlData (c : MuseClient) (o : Observable) : MuseClient :=
  {| gatt := gatt c; controlChar := controlChar c;
     eegCharacteristics := eegCharacteristics c; enableAux := enableAux c;
     deviceName := deviceName c; connectionStatus := connectionStatus c;
     rawControlData := Some o; controlResponses := Some o;
     telemetryData := telemetryData c; gyroscopeData := gyroscopeData c;
     accelerometerData := accelerometerData c; eegReadings := eegReadings c;
     lastIndex := lastIndex c; lastTimestamp := lastTimestamp c |}.

Definition set_telemetryData (c : MuseClient) (o : Observable) : MuseClient :=
  {| gatt := gatt c; controlChar := controlChar c;
     eegCharacteristics := eegCharacteristics c; enableAux := enableAux c;
     deviceName := deviceName c; connectionStatus := connectionStatus c;
     rawControlData := rawControlData c; controlResponses := controlResponses c;
     telemetryData := Some o; gyroscopeData := gyroscopeData c;
     accelerometerData := accelerometerData c; eegReadings := eegReadings c;
     lastIndex := lastIndex c; lastTimestamp := lastTimestamp c |}.

Definition set_gyroscopeData (c : MuseClient) (o : Observable) : MuseClient :=
  {| gatt := gatt c; controlChar := controlChar c;
     eegCharacteristics := eegCharacteristics c; enableAux := enableAux c;
     deviceName := deviceName c; connectionStatus := connectionStatus c;
     rawControlData := rawControlData c; controlResponses := controlResponses c;
     telemetryData := telemetryData c; gyroscopeData := Some o;
     accelerometerData := accelerometerData c; eegReadings := eegReadings c;
     lastIndex := lastIndex c; lastTimestamp := lastTimestamp c |}.

Definition set_accelerometerData (c : MuseClient) (o : Observable) : MuseClient :=
  {| gatt := gatt c; controlChar := controlChar c;
     eegCharacteristics := eegCharacteristics c; enableAux := enableAux c;
     deviceName := deviceName c; connectionStatus := connectionStatus c;
     rawControlData := rawControlData c; controlResponses := controlResponses c;
     telemetryData := telemetryData c; gyroscopeData := gyroscopeData c;
     accelerometerData := Some o; eegReadings := eegReadings c;
     lastIndex := lastIndex c; lastTimestamp := lastTimestamp c |}.

Definition set_eegReadings (c : MuseClient) (o : Observable) : MuseClient :=
  {| gatt := gatt c; controlChar := controlChar c;
     eegCharacteristics := eegCharacteristics c; enableAux := enableAux c;
     deviceName := deviceName c; connectionStatus := connectionStatus c;
     rawControlData := rawControlData c; controlResponses := controlResponses c;
     telemetryData := telemetryData c; gyroscopeData := gyroscopeData c;
     accelerometerData := accelerometerData c; eegReadings := Some o;
     lastIndex := lastIndex c; lastTimestamp := lastTimestamp c |}.

(** ** The world around the client

    Besides the client object itself, [connect] leaves a one-shot
    [gattserverdisconnected] subscription on the device, and [disconnect] calls
    the transport's [gatt.disconnect()]. *)

Record World : Type := {
  client : MuseClient;
  listeners : list BluetoothDevice;
  disconnectCalls : list BluetoothRemoteGATTServer
}.

Definition newWorld (c : MuseClient) : World :=
  {| client := c; listeners := []; disconnectCalls := [] |}.

Definition with_client (w : World) (c : MuseClient) : World :=
  {| client := c; listeners := listeners w; disconnectCalls := disconnectCalls w |}.

Definition same_device (d1 d2 : BluetoothDevice) : bool :=
  Nat.eqb (device_id d1) (device_id d2).

(** The subscriber of [gattserverdisconnected] installed by [connect]. *)
Definition onGattServerDisconnected (c : MuseClient) : MuseClient :=
  let c := set_gatt c None in
  set_connectionStatus c (next (connectionStatus c) false).

(** The transport dispatches [gattserverdisconnected] on device [d]: every
    subscription on that device runs once and, being [first()], is removed. *)
Definition gattserverdisconnected (d : BluetoothDevice) (w : World) : World :=
  {| client :=
       fold_left (fun c l => if same_device d l then onGattServerDisconnected c else c)
                 (listeners w) (client w);
     listeners := filter (fun l => negb (same_device d l)) (listeners w);
     disconnectCalls := disconnectCalls w |}.

(** ** Asynchronous functions

    An [async] function runs until its next [await] and is resumed, with the
    settled value of the awaited promise, in whatever state the world is in
    by then. *)

Definition Error : Type := string.

(** The transport operations the client awaits. *)
Inductive Op : Type -> Type :=
| requestDevice (service : Z) : Op BluetoothDevice
| gattConnect (d : BluetoothDevice) : Op BluetoothRemoteGATTServer
| getPrimaryService (g : BluetoothRemoteGATTServer) (service : Z) : Op BluetoothRemoteGATTService
| getCharacteristic (s : BluetoothRemoteGATTService) (id : string) : Op BluetoothRemoteGATTCharacteristic
| observableCharacteristic (ch : BluetoothRemoteGATTCharacteristic) : Op Observable
| writeValue (ch : BluetoothRemoteGATTCharacteristic) (payload : list Byte.byte) : Op unit.

Inductive Run (A : Type) : Type :=
| Done (r : Error + A) (w : World)
| Suspended (X : Type) (op : Op X) (w : World) (k : Error + X -> World -> Run A).

Arguments Done {A} r w.
Arguments Suspended {A X} op w k.

Definition Task (A : Type) : Type := World -> Run A.

Definition ret {A : Type} (a : A) : Task A := fun w => Done (inr a) w.

Definition throw {A : Type} (e : Error) : Task A := fun w => Done (inl e) w.

Fixpoint bindRun {A B : Type} (r : Run A) (f : A -> Task B) : Run B :=
  match r with
  | Done (inr a) w => f a w
  | Done (inl e) w => Done (inl e) w
  | Suspended op w k => Suspended op w (fun x w' => bindRun (k x w') f)
  end.

Definition bind {A B : Type} (m : Task A) (f : A -> Task B) : Task B :=
  fun w => bindRun (m w) f.

(** [await p]: suspend on [p]; a rejection is thrown at the [await]. *)
Definition await {X : Type} (op : Op X) : Task X :=
  fun w => Suspended op w (fun r w' => Done r w').

Definition modify (f : MuseClient -> MuseClient) : Task unit :=
  fun w => Done (inr tt) (with_client w (f (client w))).

Definition gets {A : Type} (f : MuseClient -> A) : Task A :=
  fun w => Done (inr (f (client w))) w.

Notation "x <- m ;; k" := (bind m (fun x => k))
  (at level 61, m at next level, right associativity).
Notation "m ;; k" := (bind m (fun _ => k))
  (at level 61, right associativity).

Definition TypeError : Error := "TypeError".

(** Dereferencing a field that may be [null] or [undefined]. *)
Definition deref {A : Type} (f : MuseClient -> option A) : Task A :=
  o <- gets f ;;
  match o with
  | Some a => ret a
  | None => throw TypeError
  end.

(** ** The methods of [MuseClient] *)

Section Methods.

(** Codecs of [lib/muse-utils] and [lib/muse-parse]. *)
Variable encodeCommand : string -> list Byte.byte.
Variable decodeEEGSamples : list Byte.byte -> list Q.

(** [this.gatt.device.name || null] *)
Definition nameOrNull (n : option string) : option string :=
  match n with
  | Some EmptyString => None
  | Some s => Some s
  | None => None
  end.

(** [Observable.fromEvent(this.gatt.device, 'gattserverdisconnected').first().subscribe(...)] *)
Definition subscribeDisconnected : Task unit :=
  g <- deref gatt ;;
  fun w => Done (inr tt)
    {| client := client w;
       listeners := listeners w ++ [device g];
       disconnectCalls := disconnectCalls w |}.

(** The body of the [for] loop over the electrode channels, for the
    channel indices still to be bound. *)
Fixpoint bindElectrodes (service : BluetoothRemoteGATTService)
    (channels : list nat) (eegObservables : list Observable) : Task (list Observable) :=
  match channels with
  | [] => ret eegObservables
  | channelIndex :: channels' =>
      characteristicId <-
        match nth_error EEG_CHARACTERISTICS channelIndex with
        | Some id => ret id
        | None => throw TypeError
        end ;;
      eegChar <- await (getCharacteristic service characteristicId) ;;
      o <- await (observableCharacteristic eegChar) ;;
      modify (fun c => set_eegCharacteristics c (eegCharacteristics c ++ [eegChar])) ;;
      bindElectrodes service channels' (eegObservables ++ [o])
  end.

Definition connect (g : option BluetoothRemoteGATTServer) : Task unit :=
  match g with
  | Some g => modify (fun c => set_gatt c (Some g))
  | None =>
      d <- await (requestDevice MUSE_SERVICE) ;;
      g <- await (gattConnect d) ;;
      modify (fun c => set_gatt c (Some g))
  end ;;
  g <- deref gatt ;;
  modify (fun c => set_deviceName c (nameOrNull (name (device g)))) ;;
  g <- deref gatt ;;
  service <- await (getPrimaryService g MUSE_SERVICE) ;;
  subscribeDisconnected ;;
  (* Control *)
  ch <- await (getCharacteristic service CONTROL_CHARACTERISTIC) ;;
  modify (fun c => set_controlChar c (Some ch)) ;;
  ch <- deref controlChar ;;
  o <- await (observableCharacteristic ch) ;;
  modify (fun c => set_controlData c o) ;;
  (* Battery *)
  telemetryCharacteristic <- await (getCharacteristic service TELEMETRY_CHARACTERISTIC) ;;
  o <- await (observableCharacteristic telemetryCharacteristic) ;;
  modify (fun c => set_telemetryData c o) ;;
  (* Gyroscope *)
  gyroscopeCharacteristic <- await (getCharacteristic service GYROSCOPE_CHARACTERISTIC) ;;
  o <- await (observableCharacteristic gyroscopeCharacteristic) ;;
  modify (fun c => set_gyroscopeData c o) ;;
  (* Accelerometer *)
  accelerometerCharacteristic <- await (getCharacteristic service ACCELEROMETER_CHARACTERISTIC) ;;
  o <- await (observableCharacteristic accelerometerCharacteristic) ;;
  modify (fun c => set_accelerometerData c o) ;;
  (* EEG *)
  modify (fun c => set_eegCharacteristics c []) ;;
  aux <- gets enableAux ;;
  let channelCount := if aux then List.length EEG_CHARACTERISTICS else 4%nat in
  eegObservables <- bindElectrodes service (seq 0 channelCount) [] ;;
  modify (fun c => set_eegReadings c (List.concat eegObservables)) ;;
  modify (fun c => set_connectionStatus c (next (connectionStatus c) true)).

Definition sendCommand (cmd : string) : Task unit :=
  ch <- deref controlChar ;;
  await (writeValue ch (encodeCommand cmd)).

Definition pause : Task unit := sendCommand "h".

Definition resume : Task unit := sendCommand "d".

Definition start : Task unit :=
  pause ;;
  ch <- deref controlChar ;;
  await (writeValue ch (encodeCommand "p20")) ;;
  ch <- deref controlChar ;;
  await (writeValue ch (encodeCommand "s")) ;;
  resume.

(** [disconnect()].  [dispatch] says whether the transport dispatches
    [gattserverdisconnected] from inside [gatt.disconnect()] ([true]) or
    leaves it to a later turn of the event loop ([false]). *)
Definition disconnect (dispatch : bool) (w : World) : World :=
  match gatt (client w) with
  | Some g =>
      let w1 := with_client w (set_sequence (client w) None None) in
      let w2 := {| client := client w1; listeners := listeners w1;
                   disconnectCalls := disconnectCalls w1 ++ [g] |} in
      let w3 := if dispatch then gattserverdisconnected (device g) w2 else w2 in
      with_client w3
        (set_connectionStatus (client w3) (next (connectionStatus (client w3)) false))
  | None => w
  end.

(** *** EEG notifications *)

Record EEGReading : Type := {
  index : Z;
  electrode : nat;
  timestamp : Q;
  samples : list Q
}.

(** [data.getUint16(0)]: big-endian; a [RangeError] ([None]) when the
    view holds fewer than two bytes. *)
Definition getUint16 (data : list Byte.byte) : option Z :=
  match data with
  | b0 :: b1 :: _ => Some (256 * Z.of_N (Byte.to_N b0) + Z.of_N (Byte.to_N b1))
  | _ => None
  end.

(** The [map] callback of the observable of electrode [channelIndex],
    applied to one notification; [now] is the clock at that moment. *)
Definition eegNotification (channelIndex : nat) (now : Z) (data : list Byte.byte)
    (c : MuseClient) : option EEGReading * MuseClient :=
  match getUint16 data with
  | Some eventIndex =>
      let '(ts, c') := getTimestamp now eventIndex c in
      (Some {| index := eventIndex; electrode := channelIndex; timestamp := ts;
               samples := decodeEEGSamples (skipn 2 data) |}, c')
  | None => (None, c)
  end.

(** One notification delivered by the transport. *)
Record EEGEvent : Type := {
  ev_channel : nat;
  ev_now : Z;
  ev_data : list Byte.byte
}.

(** [eegReadings = Observable.merge(...eegObservables)] with one subscriber:
    the readings come out in arrival order; a callback that throws ends
    the merged stream. *)
Fixpoint eegStream (evs : list EEGEvent) (c : MuseClient) : list EEGReading * MuseClient :=
  match evs with
  | [] => ([], c)
  | ev :: evs' =>
      match eegNotification (ev_channel ev) (ev_now ev) (ev_data ev) c with
      | (Some r, c') => let '(rs, c'') := eegStream evs' c' in (r :: rs, c'')
      | (None, c') => ([], c')
      end
  end.

(** The timestamps the merged stream carries for electrode [ch]. *)
Definition timestampsOf (ch : nat) (rs : list EEGReading) : list Q :=
  map timestamp (filter (fun r => Nat.eqb (electrode r) ch) rs).

(** The notifications of electrode [ch] alone. *)
Definition eventsOf (ch : nat) (evs : list EEGEvent) : list EEGEvent :=
  filter (fun ev => Nat.eqb (ev_channel ev) ch) evs.

End Methods.

(** ** Running an asynchronous function against a transport *)

(** What the transport sees of an [async] function. *)
Inductive TransportEvent : Type :=
| Issued (X : Type) (op : Op X)
| Resolved (X : Type) (op : Op X)
| Rejected (X : Type) (op : Op X) (e : Error).

Arguments Issued {X} op.
Arguments Resolved {X} op.
Arguments Rejected {X} op e.

(** A transport settles the [n]-th awaited operation. *)
Definition Transport : Type := nat -> forall X : Type, Op X -> Error + X.

Definition settled {X : Type} (op : Op X) (r : Error + X) : TransportEvent :=
  match r with
  | inr _ => Resolved op
  | inl e => Rejected op e
  end.

(** Run to completion, nothing else touching the world in between: the
    trace of transport events, the result and the final world. *)
Fixpoint exec {A : Type} (t : Transport) (n : nat) (r : Run A)
    : list TransportEvent * (Error + A) * World :=
  match r with
  | Done res w => ([], res, w)
  | Suspended op w k =>
      let reply := t n _ op in
      let '(tr, res, w') := exec t (S n) (k reply w) in
      (Issued op :: settled op reply :: tr, res, w')
  end.


(** ** Successive calls of [getTimestamp] *)

(** The timestamps returned by successive calls, each given as the clock
    reading and the event index, and the client after the last call. *)
Fixpoint getTimestamps (calls : list (Z * Z)) (c : MuseClient) : list Q * MuseClient :=
  match calls with
  | [] => ([], c)
  | (now, eventIndex) :: calls' =>
      let '(ts, c') := getTimestamp now eventIndex c in
      let '(tss, c'') := getTimestamps calls' c' in
      (ts :: tss, c'')
  end.

(** The stored [lastTimestamp] before the first call and after each call. *)
Fixpoint storedTimestamps (calls : list (Z * Z)) (c : MuseClient) : list (option Q) :=
  lastTimestamp c ::
  match calls with
  | [] => []
  | (now, eventIndex) :: calls' =>
      storedTimestamps calls' (snd (getTimestamp now eventIndex c))
  end.

(** Order on the stored clock: unset is below every value. *)
Definition clockLe (a b : option Q) : Prop :=
  match a, b with
  | None, _ => True
  | Some x, Some y => (x <= y)%Q
  | Some _, None => False
  end.

(** Both sequencing fields set, to [li] and [lt]. *)
Definition seeded (c : MuseClient) (li : Z) (lt : Q) : Prop :=
  lastIndex c = Some li /\ lastTimestamp c = Some lt.

(** The two sequencing fields are set together or not at all. *)
Definition consistent (c : MuseClient) : Prop :=
  lastIndex c = None <-> lastTimestamp c = None.

(** No index of the list makes the wrap-around loop iterate, starting with
    [li] stored. *)
Fixpoint noUnwrap (li : Z) (indices : list Z) : Prop :=
  match indices with
  | [] => True
  | i :: indices' => li - i <= 0x1000 /\ noUnwrap (Z.max li i) indices'
  end.

(** ** Notifications whose indices stay within one tolerance window *)

(** The notification carries an index, and it lies in [lo, lo + 0x1000]. *)
Definition inWindow (lo : Z) (ev : EEGEvent) : Prop :=
  exists i : Z, getUint16 (ev_data ev) = Some i /\ lo <= i <= lo + 0x1000.

(** Reading [r] belongs to notification [ev] and carries the timestamp
    that lies on the line through [(li, lt)] of slope [READING_DELTA]. *)
Definition stamped (li : Z) (lt : Q) (ev : EEGEvent) (r : EEGReading) : Prop :=
  electrode r = ev_channel ev
  /\ exists i : Z, getUint16 (ev_data ev) = Some i
       /\ (timestamp r == lt + READING_DELTA * inject_Z (i - li))%Q.

(** ** Sample inputs *)

Definition noSamples (data : list Byte.byte) : list Q := [].

(** Electrode 1 reports group 5, then electrode 0 reports group 10, both at
    clock reading 1000. *)
Definition crossTalk : list EEGEvent :=
  [ {| ev_channel := 1; ev_now := 1000; ev_data := [Byte.x00; Byte.x05] |};
    {| ev_channel := 0; ev_now := 1000; ev_data := [Byte.x00; Byte.x0a] |} ].

(** Electrode 0 reports groups 10 and 11; in between electrode 1 reports
    group 0x2000. *)
Definition farAhead : list EEGEvent :=
  [ {| ev_channel := 0; ev_now := 1000; ev_data := [Byte.x00; Byte.x0a] |};
    {| ev_channel := 1; ev_now := 1001; ev_data := [Byte.x20; Byte.x00] |};
    {| ev_channel := 0; ev_now := 1002; ev_data := [Byte.x00; Byte.x0b] |} ].

(** Two electrodes reporting groups 10 and 11 in turn. *)
Definition inStep : list EEGEvent :=
  [ {| ev_channel := 0; ev_now := 1000; ev_data := [Byte.x00; Byte.x0a] |};
    {| ev_channel := 1; ev_now := 1001; ev_data := [Byte.x00; Byte.x0a] |};
    {| ev_channel := 1; ev_now := 1047; ev_data := [Byte.x00; Byte.x0b] |};
    {| ev_channel := 0; ev_now := 1048; ev_data := [Byte.x00; Byte.x0b] |} ].

(** A client in the middle of a session: group [li] was stamped [lt]. *)
Definition streamingClient (li : Z) (lt : Q) : MuseClient :=
  set_sequence newMuseClient (Some li) (Some lt).

(** ** Sample sessions *)

Definition museDevice : BluetoothDevice :=
  {| device_id := 1; name := Some "Muse-1A2B" |}.

Definition museGatt : BluetoothRemoteGATTServer := {| device := museDevice |}.

(** A transport on which every operation resolves. *)
Definition okTransport : Transport :=
  fun _ X op =>
    match op in Op X return Error + X with
    | requestDevice _ => inr museDevice
    | gattConnect d => inr {| device := d |}
    | getPrimaryService g s => inr {| service_server := g; service_uuid := s |}
    | getCharacteristic _ id => inr {| uuid := id |}
    | observableCharacteristic ch => inr [ch]
    | writeValue _ _ => inr tt
    end.

(** A transport on which the telemetry characteristic is missing. *)
Definition noTelemetryTransport : Transport :=
  fun _ X op =>
    match op in Op X return Error + X with
    | requestDevice _ => inr museDevice
    | gattConnect d => inr {| device := d |}
    | getPrimaryService g s => inr {| service_server := g; service_uuid := s |}
    | getCharacteristic _ id =>
        if String.eqb id TELEMETRY_CHARACTERISTIC then inl "NotFoundError"
        else inr {| uuid := id |}
    | observableCharacteristic ch => inr [ch]
    | writeValue _ _ => inr tt
    end.

(** The world after a successful [connect(gatt)] on a new client. *)
Definition connectedWorld : World :=
  snd (exec okTransport 0 (connect (Some museGatt) (newWorld newMuseClient))).

(** ... and after one EEG notification (group 10 at clock reading 1000). *)
Definition streamingWorld : World :=
  with_client connectedWorld
    (snd (eegNotification noSamples 0 1000 [Byte.x00; Byte.x0a] (client connectedWorld))).

(** A command encoder for the examples: the characters of the command. *)
Definition asciiCommand (cmd : string) : list Byte.byte := list_byte_of_string cmd.

(** ** Tasks that leave [connectionStatus] alone *)

(** A rejection by the transport is what the task fails with. *)
Definition rejectionsPropagate {A : Type} (tr : list TransportEvent) (res : Error + A) : Prop :=
  forall (X : Type) (op : Op X) (e : Error), In (Rejected op e) tr -> res = inl e.

(** The task never touches [connectionStatus]. *)
Definition quiet {A : Type} (m : Task A) : Prop :=
  forall (t : Transport) (n : nat) (w : World),
    let '(tr, res, w') := exec t n (m w) in
    connectionStatus (client w') = connectionStatus (client w)
    /\ rejectionsPropagate tr res.

(** The task has not touched [connectionStatus] when it fails. *)
Definition guarded {A : Type} (m : Task A) : Prop :=
  forall (t : Transport) (n : nat) (w : World),
    let '(tr, res, w') := exec t n (m w) in
    rejectionsPropagate tr res
    /\ match res with
       | inl _ => connectionStatus (client w') = connectionStatus (client w)
       | inr _ => True
       end.

(** ** The device's group counter *)

(** The 16-bit index the device sends for group number [a]. *)
Definition wireIndex (a : Z) : Z := a mod 0x10000.

(** Group numbers the reconstruction can follow, starting with [li] stored:
    each one is at most 0x1000 behind and less than 0xF000 ahead of the
    highest group number seen so far. *)
Fixpoint trackable (li : Z) (groups : list Z) : Prop :=
  match groups with
  | [] => True
  | a :: groups' =>
      0 <= a /\ - 0x1000 <= a - li < 0xF000 /\ trackable (Z.max li a) groups'
  end.

(** [n] consecutive group numbers from [a] on. *)
Fixpoint consecutive (a : Z) (n : nat) : list Z :=
  match n with
  | O => []
  | S n' => a :: consecutive (a + 1) n'
  end.

(** ** Reading a transport trace *)

Definition isRejected (ev : TransportEvent) : bool :=
  match ev with
  | Rejected _ _ => true
  | _ => false
  end.

(** No operation of the trace was rejected. *)
Definition allResolved (tr : list TransportEvent) : bool :=
  forallb (fun ev => negb (isRejected ev)) tr.


(** The payloads written, in the order the writes were issued. *)
Fixpoint issuedWrites (tr : list TransportEvent) : list (list Byte.byte) :=
  match tr with
  | [] => []
  | Issued op :: tr' =>
      match op with
      | writeValue _ payload => payload :: issuedWrites tr'
      | _ => issuedWrites tr'
      end
  | _ :: tr' => issuedWrites tr'
  end.

(** The task leaves a part of the world as it found it, whatever the
    transport does. *)
Definition keeps {A B : Type} (part : World -> B) (m : Task A) : Prop :=
  forall (t : Transport) (n : nat) (w : World),
    part (snd (exec t n (m w))) = part w.

(** What [connect] has no business with: the sequencing fields, the
    auxiliary-channel flag and the log of [gatt.disconnect()] calls. *)
Definition sessionIndependent (w : World)
    : option Z * option Q * bool * list BluetoothRemoteGATTServer :=
  (lastIndex (client w), lastTimestamp (client w), enableAux (client w),
   disconnectCalls w).

(** The number of subscriptions armed on device [d]. *)
Definition armedOn (d : BluetoothDevice) (w : World) : nat :=
  List.length (filter (same_device d) (listeners w)).

(** ** More sample inputs *)

(** A transport that rejects the third operation awaited and resolves all
    others. *)
Definition thirdAwaitFails : Transport :=
  fun k X op =>
    if Nat.eqb k 2 then inl "NetworkError" else okTransport k op.

Definition blankReading : EEGReading :=
  {| index := 0; electrode := 0; timestamp := 0; samples := [] |}.

(** ** Notifications that carry the indices of known groups *)

(** The notification [fst p] carries the 16-bit index of group [snd p]. *)
Definition carries (p : EEGEvent * Z) : Prop :=
  getUint16 (ev_data (fst p)) = Some (wireIndex (snd p)).

Definition onChannel (ch : nat) (p : EEGEvent * Z) : bool :=
  Nat.eqb (ev_channel (fst p)) ch.

(** Reading [r] belongs to the notification of [p] and stamps its group on
    the line through [(li, lt)] of slope [READING_DELTA]. *)
Definition tracked (li : Z) (lt : Q) (p : EEGEvent * Z) (r : EEGReading) : Prop :=
  electrode r = ev_channel (fst p)
  /\ (timestamp r == lt + READING_DELTA * inject_Z (snd p - li))%Q.

(** Where the group numbers of a run count from: group [li] is the one in
    store, or, on a client with nothing in store, the group of the first
    notification, which then comes from electrode [ch]. *)
Definition startsFrom (c : MuseClient) (ch : nat) (tagged : list (EEGEvent * Z))
    (li : Z) : Prop :=
  (exists lt : Q, seeded c li lt)
  \/ ((lastIndex c = None \/ lastTimestamp c = None)
      /\ match tagged with
         | [] => True
         | (ev, a) :: _ => ev_channel ev = ch /\ a = li /\ 0 <= li < 0x10000
         end).

(** Two electrodes reporting groups 0xFFF5, 0x10005 and 0x10006 across a
    wrap-around of the counter, electrode 1 first. *)
Definition acrossWrap : list (EEGEvent * Z) :=
  [ ({| ev_channel := 1; ev_now := 1000; ev_data := [Byte.xff; Byte.xf5] |}, 0xFFF5);
    ({| ev_channel := 0; ev_now := 1001; ev_data := [Byte.xff; Byte.xf5] |}, 0xFFF5);
    ({| ev_channel := 1; ev_now := 1750; ev_data := [Byte.x00; Byte.x05] |}, 0x10005);
    ({| ev_channel := 0; ev_now := 1751; ev_data := [Byte.x00; Byte.x05] |}, 0x10005);
    ({| ev_channel := 0; ev_now := 1797; ev_data := [Byte.x00; Byte.x06] |}, 0x10006);
    ({| ev_channel := 1; ev_now := 1798; ev_data := [Byte.x00; Byte.x06] |}, 0x10006) ].

(** The notifications of [farAhead] with the group numbers the merged
    stream gives them: the last index, 11, is taken for group 0x1000B. *)
Definition farAheadMerged : list (EEGEvent * Z) :=
  combine farAhead [10; 0x2000; 0x1000B].

(** The same notifications with the group numbers electrode 0 alone would
    give its own. *)
Definition farAheadOwn : list (EEGEvent * Z) :=
  combine farAhead [10; 0x2000; 11].

(** ** Running an asynchronous function while the device may drop *)

(** As [exec], but while the [k]-th awaited operation is pending the
    transport dispatches [gattserverdisconnected] on the devices
    [events k], in this order, before the function is resumed. *)
Fixpoint execWith {A : Type} (t : Transport) (events : nat -> list BluetoothDevice)
    (n : nat) (r : Run A) : list TransportEvent * (Error + A) * World :=
  match r with
  | Done res w => ([], res, w)
  | Suspended op w k =>
      let reply := t n _ op in
      let w1 := fold_left (fun w0 d => gattserverdisconnected d w0) (events n) w in
      let '(tr, res, w') := execWith t events (S n) (k reply w1) in
      (Issued op :: settled op reply :: tr, res, w')
  end.

(** No event while anything is pending. *)
Definition noEvents : nat -> list BluetoothDevice := fun _ => [].

(** The device drops while the second awaited operation is pending. *)
Definition dropsDuringSecondAwait : nat -> list BluetoothDevice :=
  fun k => if Nat.eqb k 1 then [museDevice] else [].

(** A transport that rejects the second operation awaited and resolves all
    others. *)
Definition secondAwaitFails : Transport :=
  fun k X op =>
    if Nat.eqb k 1 then inl "NetworkError" else okTransport k op.

(** * Properties *)

(** ** The reading interval *)

Lemma READING_DELTA_eq : (READING_DELTA == 375 # 8)%Q.
Proof. reflexivity. Qed.

Lemma READING_DELTA_pos : (0 < READING_DELTA)%Q.
Proof. reflexivity. Qed.

Lemma inject_Z_pos (z : Z) : 0 < z -> (0 < inject_Z z)%Q.
Proof. intros H. change 0%Q with (inject_Z 0). rewrite <- Zlt_Qlt. exact H. Qed.

Lemma inject_Z_sub (x y : Z) : inject_Z (x - y) = (inject_Z x - inject_Z y)%Q.
Proof.
  unfold Z.sub. rewrite inject_Z_plus, inject_Z_opp. reflexivity.
Qed.

Lemma delta_times_pos (z : Z) : 0 < z -> (0 < READING_DELTA * inject_Z z)%Q.
Proof.
  intros H. apply Qmult_lt_0_compat; [apply READING_DELTA_pos | now apply inject_Z_pos].
Qed.

(** ** The wrap-around loop *)

Lemma unwrap_noop (li ev : Z) : li - ev <= 0x1000 -> unwrap li ev = ev.
Proof.
  intros H. rewrite unwrap_equation_1.
  destruct (Z_gt_dec (li - ev) 4096) as [Hgt | Hle]; [lia | reflexivity].
Qed.

Lemma unwrap_step (li ev : Z) :
  li - ev > 0x1000 -> unwrap li ev = unwrap li (ev + 0x10000).
Proof.
  intros H. rewrite unwrap_equation_1.
  destruct (Z_gt_dec (li - ev) 4096) as [Hgt | Hle]; [reflexivity | lia].
Qed.

Lemma unwrap_bound (li ev : Z) : li - unwrap li ev <= 0x1000.
Proof.
  funelim (unwrap li ev); [assumption | lia].
Qed.

Lemma unwrap_ge (li ev : Z) : ev <= unwrap li ev.
Proof.
  funelim (unwrap li ev); lia.
Qed.

(** C10: the wrap-around loop of [getTimestamp] terminates on all integers
    (in particular on all non-negative ones): some number of iterations
    makes the loop condition false, the loop then leaves
    [lastIndex - eventIndex <= 0x1000], and its result is the value
    [getTimestamp] continues with. *)
Theorem unwrap_loop_terminates (li ev : Z) :
  exists fuel : nat,
    unwrap_loop fuel li ev = Some (unwrap li ev)
    /\ li - unwrap li ev <= 0x1000
    /\ (Z.of_nat fuel) * 0x10000 <= Z.max 0 (li - ev - 0x1000) + 0xFFFF.
Proof.
  funelim (unwrap li ev).
  - destruct H as [fuel [Hrun [Hexit Hfuel]]].
    exists (S fuel). split; [| split].
    + simpl. destruct (_ - _ >? 4096) eqn:E; [exact Hrun | lia].
    + exact Hexit.
    + lia.
  - exists O. split; [| split].
    + simpl. destruct (_ - _ >? 4096) eqn:E; [lia | reflexivity].
    + lia.
    + lia.
Qed.

(** ** One call of [getTimestamp] *)

Lemma getTimestamp_seeded (now ev : Z) (c : MuseClient) (li : Z) (lt : Q) :
  seeded c li lt ->
  getTimestamp now ev c =
    let e := unwrap li ev in
    if e =? li then (lt, c)
    else if e >? li then
      (lt + READING_DELTA * inject_Z (e - li),
       set_sequence c (Some e) (Some (lt + READING_DELTA * inject_Z (e - li))))%Q
    else ((lt - READING_DELTA * inject_Z (li - e))%Q, c).
Proof.
  intros [Hi Ht]. unfold getTimestamp. rewrite Hi, Ht. reflexivity.
Qed.

Lemma getTimestamp_unseeded (now ev : Z) (c : MuseClient) :
  lastIndex c = None \/ lastTimestamp c = None ->
  getTimestamp now ev c =
    ((inject_Z now - READING_DELTA)%Q,
     set_sequence c (Some ev) (Some (inject_Z now - READING_DELTA)%Q)).
Proof.
  intros H. unfold getTimestamp.
  assert (Hseed :
    match lastIndex c, lastTimestamp c with
    | Some li, Some lt => (li, lt, c)
    | _, _ => (ev, (inject_Z now - READING_DELTA)%Q,
               set_sequence c (Some ev) (Some (inject_Z now - READING_DELTA)%Q))
    end = (ev, (inject_Z now - READING_DELTA)%Q,
           set_sequence c (Some ev) (Some (inject_Z now - READING_DELTA)%Q))).
  { destruct H as [H | H]; rewrite H; [reflexivity |].
    destruct (lastIndex c); reflexivity. }
  rewrite Hseed. rewrite unwrap_noop by lia. rewrite Z.eqb_refl. reflexivity.
Qed.

(** C5: with [lastIndex = 0xFFF0] stored, the index [0x0005] is unwrapped
    to [0x10005], 21 groups ahead; the call takes the forward branch, returns
    the stored timestamp plus 21 reading intervals and stores both. *)
Theorem wraparound_FFF0_0005 (now : Z) (c : MuseClient) (lt : Q) :
  seeded c 0xFFF0 lt ->
  unwrap 0xFFF0 0x0005 = 0x10005
  /\ unwrap 0xFFF0 0x0005 - 0xFFF0 = 21
  /\ (fst (getTimestamp now 0x0005 c) == lt + 21 * READING_DELTA)%Q
  /\ (lt < fst (getTimestamp now 0x0005 c))%Q
  /\ lastIndex (snd (getTimestamp now 0x0005 c)) = Some 0x10005
  /\ lastTimestamp (snd (getTimestamp now 0x0005 c)) = Some (fst (getTimestamp now 0x0005 c)).
Proof.
  intros Hs.
  assert (Hu : unwrap 0xFFF0 0x0005 = 0x10005).
  { rewrite unwrap_step by lia. apply unwrap_noop. lia. }
  rewrite (getTimestamp_seeded now 0x0005 Hs). cbv zeta. rewrite Hu.
  change (65541 =? 65520) with false. change (65541 >? 65520) with true.
  cbv iota. simpl fst. simpl snd.
  change (inject_Z (65541 - 65520)) with (inject_Z 21).
  pose proof (delta_times_pos (z := 21) ltac:(lia)) as Hpos.
  change (inject_Z 21) with 21%Q in *.
  split; [reflexivity |]. split; [reflexivity |].
  split; [ring |]. split; [lra |]. split; reflexivity.
Qed.

(** C7: when the unwrapped index is strictly below the stored [lastIndex]
    (it is then at most 0x1000 below), the call returns
    [lastTimestamp - READING_DELTA * (lastIndex - index)], which is strictly
    less than [lastTimestamp], and leaves the client as it was. *)
Theorem late_index_interpolated (now ev : Z) (c : MuseClient) (li : Z) (lt : Q) :
  seeded c li lt ->
  unwrap li ev < li ->
  li - unwrap li ev <= 0x1000
  /\ fst (getTimestamp now ev c)
     = (lt - READING_DELTA * inject_Z (li - unwrap li ev))%Q
  /\ (fst (getTimestamp now ev c) < lt)%Q
  /\ snd (getTimestamp now ev c) = c
  /\ lastIndex (snd (getTimestamp now ev c)) = Some li
  /\ lastTimestamp (snd (getTimestamp now ev c)) = Some lt.
Proof.
  intros Hs Hlt.
  rewrite (getTimestamp_seeded now ev Hs). cbv zeta.
  destruct (unwrap li ev =? li) eqn:Eeq; [apply Z.eqb_eq in Eeq; lia |].
  destruct (unwrap li ev >? li) eqn:Egt; [lia |].
  simpl fst. simpl snd. destruct Hs as [Hi Ht].
  pose proof (delta_times_pos (z := li - unwrap li ev) ltac:(lia)) as Hpos.
  split; [apply unwrap_bound |]. split; [reflexivity |].
  split; [lra |]. split; [reflexivity |]. split; assumption.
Qed.

(** ** Calls that do not unwrap: timestamps are affine in the index *)

Lemma affine_shift (lt lt' ts : Q) (a b i : Z) :
  (lt' == lt + READING_DELTA * inject_Z (b - a))%Q ->
  (ts == lt' + READING_DELTA * inject_Z (i - b))%Q ->
  (ts == lt + READING_DELTA * inject_Z (i - a))%Q.
Proof.
  intros H1 H2. rewrite H2, H1. rewrite !inject_Z_sub. ring.
Qed.

Lemma getTimestamp_affine (now ev : Z) (c : MuseClient) (li : Z) (lt : Q) :
  seeded c li lt ->
  li - ev <= 0x1000 ->
  exists lt' : Q,
    seeded (snd (getTimestamp now ev c)) (Z.max li ev) lt'
    /\ (lt' == lt + READING_DELTA * inject_Z (Z.max li ev - li))%Q
    /\ (fst (getTimestamp now ev c) == lt + READING_DELTA * inject_Z (ev - li))%Q.
Proof.
  intros Hs Hw. rewrite (getTimestamp_seeded now ev Hs). cbv zeta.
  rewrite (unwrap_noop _ _ Hw).
  destruct (ev =? li) eqn:Eeq; [| destruct (ev >? li) eqn:Egt]; simpl fst; simpl snd.
  - apply Z.eqb_eq in Eeq. subst ev. rewrite Z.max_id, Z.sub_diag.
    exists lt. split; [exact Hs |]. change (inject_Z 0) with 0%Q. split; ring.
  - assert (Hmax : Z.max li ev = ev) by lia. rewrite Hmax.
    exists (lt + READING_DELTA * inject_Z (ev - li))%Q.
    split; [split; reflexivity |]. split; reflexivity.
  - apply Z.eqb_neq in Eeq. assert (Hmax : Z.max li ev = li) by lia. rewrite Hmax.
    rewrite Z.sub_diag. exists lt. split; [exact Hs |].
    change (inject_Z 0) with 0%Q. split; [ring |].
    rewrite !inject_Z_sub. ring.
Qed.

Lemma getTimestamps_affine (calls : list (Z * Z)) :
  forall (c : MuseClient) (li : Z) (lt : Q),
    seeded c li lt ->
    noUnwrap li (map snd calls) ->
    Forall2 (fun call ts => (ts == lt + READING_DELTA * inject_Z (snd call - li))%Q)
            calls (fst (getTimestamps calls c)).
Proof.
  induction calls as [| [now ev] calls IH]; intros c li lt Hs Hn.
  - constructor.
  - destruct Hn as [Hw Hn]. simpl in Hw, Hn.
    destruct (getTimestamp_affine now ev Hs Hw) as [lt' [Hs' [Hlt' Hts]]].
    simpl. destruct (getTimestamp now ev c) as [ts c'] eqn:Eg.
    simpl in Hs', Hts. specialize (IH c' _ _ Hs' Hn).
    destruct (getTimestamps calls c') as [tss c''] eqn:Er. simpl in IH |- *.
    constructor; [exact Hts |].
    eapply Forall2_impl; [| exact IH].
    intros call t Ht. simpl in Ht. eapply affine_shift; [exact Hlt' | exact Ht].
Qed.

Lemma Forall2_nth {A B : Type} (R : A -> B -> Prop) (l1 : list A) (l2 : list B)
    (d1 : A) (d2 : B) :
  Forall2 R l1 l2 ->
  forall k : nat, (k < List.length l1)%nat -> R (nth k l1 d1) (nth k l2 d2).
Proof.
  induction 1 as [| a b l1 l2 Hab _ IH]; intros k Hk; simpl in Hk.
  - lia.
  - destruct k as [| k]; simpl; [exact Hab | apply IH; lia].
Qed.

Lemma increasing_noUnwrap (indices : list Z) :
  forall li : Z,
    Sorted.StronglySorted Z.lt indices ->
    (forall i, In i indices -> li - i <= 0x1000) ->
    noUnwrap li indices.
Proof.
  induction indices as [| i indices IH]; intros li Hsorted Hin; simpl.
  - exact I.
  - inversion Hsorted as [| i' l' Hs Hall]; subst.
    split; [apply Hin; left; reflexivity |].
    apply IH; [exact Hs |].
    intros j Hj. rewrite Forall_forall in Hall. specialize (Hall j Hj).
    specialize (Hin j (or_intror Hj)). lia.
Qed.

Lemma sorted_nth_lt (indices : list Z) :
  Sorted.StronglySorted Z.lt indices ->
  forall k : nat, (S k < List.length indices)%nat ->
    nth k indices 0 < nth (S k) indices 0.
Proof.
  induction 1 as [| i indices Hs IH Hall]; intros k Hk; simpl in Hk.
  - lia.
  - destruct k as [| k].
    + simpl. rewrite Forall_forall in Hall. apply Hall.
      destruct indices as [| j indices]; simpl in *; [lia | left; reflexivity].
    + change (nth k indices 0 < nth (S k) indices 0). apply IH. lia.
Qed.

(** From any state, provided a stored index does not make the first call
    unwrap, the timestamps of an increasing run of indices all lie on one
    line of slope [READING_DELTA]. *)
Lemma getTimestamps_increasing (calls : list (Z * Z)) (c : MuseClient) :
  Sorted.StronglySorted Z.lt (map snd calls) ->
  (forall li i, lastIndex c = Some li -> In i (map snd calls) -> li - i <= 0x1000) ->
  exists (li : Z) (lt : Q),
    Forall2 (fun call ts => (ts == lt + READING_DELTA * inject_Z (snd call - li))%Q)
            calls (fst (getTimestamps calls c)).
Proof.
  intros Hsorted Hwin.
  destruct (lastIndex c) as [li |] eqn:Ei; [destruct (lastTimestamp c) as [lt |] eqn:Et |].
  - exists li, lt. apply getTimestamps_affine; [split; assumption |].
    apply increasing_noUnwrap; [exact Hsorted |]. intros i Hi. now apply Hwin.
  - destruct calls as [| [now ev] calls]; [exists 0, 0%Q; constructor |].
    exists ev, (inject_Z now - READING_DELTA)%Q.
    simpl. rewrite (getTimestamp_unseeded now ev c (or_intror Et)).
    pose proof (@getTimestamps_affine calls
      (set_sequence c (Some ev) (Some (inject_Z now - READING_DELTA)%Q))
      ev (inject_Z now - READING_DELTA)%Q (conj eq_refl eq_refl)) as Haff.
    destruct (getTimestamps calls _) as [tss c''] eqn:Er. simpl in Haff |- *.
    simpl in Hsorted. inversion Hsorted as [| i' l' Hs Hall]; subst.
    constructor.
    + simpl. rewrite Z.sub_diag. change (inject_Z 0) with 0%Q. ring.
    + apply Haff. apply increasing_noUnwrap; [exact Hs |].
      intros i Hi. rewrite Forall_forall in Hall. specialize (Hall i Hi). lia.
  - destruct calls as [| [now ev] calls]; [exists 0, 0%Q; constructor |].
    exists ev, (inject_Z now - READING_DELTA)%Q.
    simpl. rewrite (getTimestamp_unseeded now ev c (or_introl Ei)).
    pose proof (@getTimestamps_affine calls
      (set_sequence c (Some ev) (Some (inject_Z now - READING_DELTA)%Q))
      ev (inject_Z now - READING_DELTA)%Q (conj eq_refl eq_refl)) as Haff.
    destruct (getTimestamps calls _) as [tss c''] eqn:Er. simpl in Haff |- *.
    simpl in Hsorted. inversion Hsorted as [| i' l' Hs Hall]; subst.
    constructor.
    + simpl. rewrite Z.sub_diag. change (inject_Z 0) with 0%Q. ring.
    + apply Haff. apply increasing_noUnwrap; [exact Hs |].
      intros i Hi. rewrite Forall_forall in Hall. specialize (Hall i Hi). lia.
Qed.

(** C6: for a strictly increasing sequence of indices that involves no
    wrap-around (an index stored beforehand is not more than 0x1000 ahead of
    them), consecutive returned timestamps differ by exactly [READING_DELTA]
    times the difference of the two indices, and strictly increase. *)
Theorem increasing_indices_increasing_timestamps
    (calls : list (Z * Z)) (c : MuseClient) (k : nat) :
  Sorted.StronglySorted Z.lt (map snd calls) ->
  (forall li i, lastIndex c = Some li -> In i (map snd calls) -> li - i <= 0x1000) ->
  (S k < List.length calls)%nat ->
  let ts := fst (getTimestamps calls c) in
  let indices := map snd calls in
  (nth (S k) ts 0%Q - nth k ts 0%Q
     == READING_DELTA * inject_Z (nth (S k) indices 0%Z - nth k indices 0%Z))%Q
  /\ (nth k ts 0%Q < nth (S k) ts 0%Q)%Q.
Proof.
  intros Hsorted Hwin Hk ts indices.
  destruct (getTimestamps_increasing calls c Hsorted Hwin) as [li [lt HF]].
  pose proof (Forall2_nth (0, 0) 0%Q HF (k := k) ltac:(lia)) as H0.
  pose proof (Forall2_nth (0, 0) 0%Q HF (k := S k) ltac:(lia)) as H1.
  fold ts in H0, H1.
  assert (Hsnd : forall n, snd (nth n calls (0, 0)) = nth n indices 0).
  { intros n. unfold indices. symmetry. exact (map_nth snd calls (0, 0) n). }
  simpl in H0, H1. rewrite Hsnd in H0, H1.
  assert (Hlt : nth k indices 0 < nth (S k) indices 0).
  { apply sorted_nth_lt; [exact Hsorted |]. unfold indices. rewrite length_map. exact Hk. }
  pose proof (delta_times_pos (z := nth (S k) indices 0 - nth k indices 0) ltac:(lia)) as Hpos.
  assert (Hdiff : (nth (S k) ts 0%Q - nth k ts 0%Q
     == READING_DELTA * inject_Z (nth (S k) indices 0%Z - nth k indices 0%Z))%Q).
  { rewrite H0, H1. rewrite !inject_Z_sub. ring. }
  split; [exact Hdiff | lra].
Qed.

(** ** The stored clock never moves backward *)

Lemma getTimestamp_clock (now ev : Z) (c : MuseClient) :
  consistent c ->
  clockLe (lastTimestamp c) (lastTimestamp (snd (getTimestamp now ev c)))
  /\ consistent (snd (getTimestamp now ev c)).
Proof.
  intros [Hc1 Hc2].
  destruct (lastIndex c) as [li |] eqn:Ei; destruct (lastTimestamp c) as [lt |] eqn:Et.
  - rewrite (getTimestamp_seeded now ev (conj Ei Et)). cbv zeta.
    destruct (unwrap li ev =? li) eqn:Eeq; [| destruct (unwrap li ev >? li) eqn:Egt];
      simpl snd.
    + rewrite Et. split; [apply Qle_refl |]. unfold consistent. rewrite Ei, Et.
      split; discriminate.
    + simpl. split; [| split; discriminate].
      pose proof (delta_times_pos (z := unwrap li ev - li) ltac:(lia)) as Hpos. lra.
    + rewrite Et. split; [apply Qle_refl |]. unfold consistent. rewrite Ei, Et.
      split; discriminate.
  - specialize (Hc2 eq_refl). discriminate.
  - specialize (Hc1 eq_refl). discriminate.
  - rewrite (getTimestamp_unseeded now ev c (or_introl Ei)). simpl.
    split; [exact I | split; discriminate].
Qed.

Lemma storedTimestamps_head (calls : list (Z * Z)) (c : MuseClient) :
  nth 0 (storedTimestamps calls c) None = lastTimestamp c.
Proof. destruct calls as [| [now ev] calls]; reflexivity. Qed.

(** C8: over any sequence of calls on a client whose two sequencing fields
    are set together or not at all, the stored [lastTimestamp] never
    decreases from one call to the next, whatever indices are presented
    (so in particular for indices non-decreasing modulo wrap-around): seeding
    sets it, an equal or late index leaves it, a forward index adds a
    positive multiple of [READING_DELTA]. *)
Theorem stored_timestamp_monotone (calls : list (Z * Z)) :
  forall (c : MuseClient) (k : nat),
    consistent c ->
    (S k < List.length (storedTimestamps calls c))%nat ->
    clockLe (nth k (storedTimestamps calls c) None)
            (nth (S k) (storedTimestamps calls c) None).
Proof.
  induction calls as [| [now ev] calls IH]; intros c k Hc Hk.
  - simpl in Hk. lia.
  - destruct (getTimestamp_clock now ev Hc) as [Hle Hc'].
    destruct k as [| k].
    + change (clockLe (lastTimestamp c)
               (nth 0 (storedTimestamps calls (snd (getTimestamp now ev c))) None)).
      rewrite storedTimestamps_head. exact Hle.
    + change (clockLe
               (nth k (storedTimestamps calls (snd (getTimestamp now ev c))) None)
               (nth (S k) (storedTimestamps calls (snd (getTimestamp now ev c))) None)).
      apply IH; [exact Hc' |].
      change (S (S k) < S (List.length
               (storedTimestamps calls (snd (getTimestamp now ev c)))))%nat in Hk.
      lia.
Qed.

(** ** The merged electrode stream *)

Lemma eegStream_affine (dec : list Byte.byte -> list Q) (evs : list EEGEvent) :
  forall (c : MuseClient) (li : Z) (lt : Q) (lo : Z),
    seeded c li lt ->
    lo <= li <= lo + 0x1000 ->
    Forall (inWindow lo) evs ->
    Forall2 (stamped li lt) evs (fst (eegStream dec evs c)).
Proof.
  induction evs as [| ev evs IH]; intros c li lt lo Hs Hli Hwin.
  - constructor.
  - inversion Hwin as [| ev' evs' [i [Hget Hi]] Hrest]; subst.
    assert (Hw : li - i <= 0x1000) by lia.
    destruct (getTimestamp_affine (ev_now ev) i Hs Hw) as [lt' [Hs' [Hlt' Hts]]].
    simpl. unfold eegNotification. rewrite Hget.
    destruct (getTimestamp (ev_now ev) i c) as [ts c'] eqn:Eg.
    simpl in Hs', Hts.
    assert (Hmax : lo <= Z.max li i <= lo + 0x1000) by lia.
    specialize (IH c' _ _ lo Hs' Hmax Hrest).
    destruct (eegStream dec evs c') as [rs c''] eqn:Er. simpl in IH |- *.
    constructor.
    + split; [reflexivity |]. exists i. split; [exact Hget | exact Hts].
    + eapply Forall2_impl; [| exact IH].
      intros e r [Hel [j [Hj Hr]]]. split; [exact Hel |].
      exists j. split; [exact Hj |]. eapply affine_shift; [exact Hlt' | exact Hr].
Qed.

Lemma Forall2_filter {A B : Type} (R : A -> B -> Prop) (f : A -> bool) (g : B -> bool)
    (l1 : list A) (l2 : list B) :
  (forall a b, R a b -> f a = g b) ->
  Forall2 R l1 l2 ->
  Forall2 R (filter f l1) (filter g l2).
Proof.
  intros Hfg. induction 1 as [| a b l1 l2 Hab _ IH]; simpl.
  - constructor.
  - rewrite <- (Hfg a b Hab). destruct (f a); [constructor; assumption | assumption].
Qed.

Lemma filter_idempotent {A : Type} (f : A -> bool) (l : list A) :
  filter f (filter f l) = filter f l.
Proof.
  induction l as [| a l IH]; simpl; [reflexivity |].
  destruct (f a) eqn:E; simpl; [rewrite E, IH; reflexivity | exact IH].
Qed.

Lemma Forall_filter_keep {A : Type} (P : A -> Prop) (f : A -> bool) (l : list A) :
  Forall P l -> Forall P (filter f l).
Proof.
  induction 1 as [| a l Ha _ IH]; simpl; [constructor |].
  destruct (f a); [constructor; assumption | assumption].
Qed.

(** C1 as stated does not hold: a notification of electrode 1 that arrives
    first seeds the shared state, and the first group of electrode 0 is then
    stamped 5 intervals after it instead of being stamped from the clock. *)
Lemma electrodes_share_sequence_state :
  ~ (forall (dec : list Byte.byte -> list Q) (c : MuseClient)
            (evs : list EEGEvent) (ch : nat),
       Forall2 Qeq (timestampsOf ch (fst (eegStream dec evs c)))
                   (timestampsOf ch (fst (eegStream dec (eventsOf ch evs) c)))).
Proof.
  intros H. specialize (H noSamples newMuseClient crossTalk 0%nat).
  vm_compute in H.
  inversion H as [| x y l l' Hxy _]; subst. discriminate Hxy.
Qed.

(** Nor does it hold once the state is seeded: an index of electrode 1 more
    than 0x1000 ahead makes the next index of electrode 0 unwrap. *)
Lemma far_ahead_electrode_unwraps_the_other :
  map Qred (timestampsOf 0 (fst (eegStream noSamples farAhead newMuseClient)))
    = [(7625 # 8)%Q; (3073000 # 1)%Q]
  /\ map Qred (timestampsOf 0 (fst (eegStream noSamples (eventsOf 0 farAhead) newMuseClient)))
    = [(7625 # 8)%Q; (1000 # 1)%Q].
Proof. split; vm_compute; reflexivity. Qed.

(** ** Asynchronous functions: sequencing *)

Lemma exec_bindRun {A B : Type} (t : Transport) (f : A -> Task B) (r : Run A) :
  forall n : nat,
    exec t n (bindRun r f) =
      let '(tr1, res1, w1) := exec t n r in
      match res1 with
      | inl e => (tr1, inl e, w1)
      | inr a =>
          let '(tr2, res2, w2) := exec t (n + Nat.div2 (List.length tr1)) (f a w1) in
          (tr1 ++ tr2, res2, w2)
      end.
Proof.
  induction r as [res w | X op w k IH]; intros n.
  - destruct res as [e | a]; simpl; [reflexivity |].
    rewrite Nat.add_0_r. destruct (exec t n (f a w)) as [[tr2 res2] w2]. reflexivity.
  - simpl. rewrite IH.
    destruct (exec t (S n) (k (t n X op) w)) as [[tr1 res1] w1].
    destruct res1 as [e | a]; [reflexivity |].
    simpl. rewrite <- plus_n_Sm.
    destruct (exec t _ (f a w1)) as [[tr2 res2] w2]. reflexivity.
Qed.

Lemma quiet_ret {A : Type} (a : A) : quiet (ret a).
Proof. intros t n w. simpl. split; [reflexivity | intros X op e []]. Qed.

Lemma quiet_throw {A : Type} (e : Error) : quiet (@throw A e).
Proof. intros t n w. simpl. split; [reflexivity | intros X op e' []]. Qed.

Lemma quiet_gets {A : Type} (f : MuseClient -> A) : quiet (gets f).
Proof. intros t n w. simpl. split; [reflexivity | intros X op e []]. Qed.

Lemma quiet_modify (f : MuseClient -> MuseClient) :
  (forall c, connectionStatus (f c) = connectionStatus c) -> quiet (modify f).
Proof. intros Hf t n w. simpl. split; [apply Hf | intros X op e []]. Qed.

Lemma quiet_await {X : Type} (op : Op X) : quiet (await op).
Proof.
  intros t n w. simpl. split; [reflexivity |].
  intros Y op' e [H | [H | []]]; [discriminate H |].
  destruct (t n X op) as [e0 | x]; simpl in H; [| discriminate H].
  injection H as _ _ He. subst e0. reflexivity.
Qed.

Lemma quiet_bind {A B : Type} (m : Task A) (f : A -> Task B) :
  quiet m -> (forall a, quiet (f a)) -> quiet (bind m f).
Proof.
  intros Hm Hf t n w. unfold bind. rewrite exec_bindRun.
  specialize (Hm t n w). destruct (exec t n (m w)) as [[tr1 res1] w1].
  destruct Hm as [Hst1 Hrej1]. destruct res1 as [e | a].
  { simpl. split; [exact Hst1 |]. intros X op e' Hin.
    specialize (Hrej1 X op e' Hin). injection Hrej1 as ->. reflexivity. }
  specialize (Hf a t (n + Nat.div2 (List.length tr1))%nat w1).
  destruct (exec t _ (f a w1)) as [[tr2 res2] w2]. destruct Hf as [Hst2 Hrej2].
  split; [congruence |].
  intros X op e Hin. apply in_app_or in Hin. destruct Hin as [Hin | Hin].
  - specialize (Hrej1 X op e Hin). discriminate Hrej1.
  - exact (Hrej2 X op e Hin).
Qed.

Lemma guarded_bind {A B : Type} (m : Task A) (f : A -> Task B) :
  quiet m -> (forall a, guarded (f a)) -> guarded (bind m f).
Proof.
  intros Hm Hf t n w. unfold bind. rewrite exec_bindRun.
  specialize (Hm t n w). destruct (exec t n (m w)) as [[tr1 res1] w1].
  destruct Hm as [Hst1 Hrej1]. destruct res1 as [e | a].
  { simpl. split; [| exact Hst1]. intros X op e' Hin.
    specialize (Hrej1 X op e' Hin). injection Hrej1 as ->. reflexivity. }
  specialize (Hf a t (n + Nat.div2 (List.length tr1))%nat w1).
  destruct (exec t _ (f a w1)) as [[tr2 res2] w2]. destruct Hf as [Hrej2 Hst2].
  split.
  - intros X op e Hin. apply in_app_or in Hin. destruct Hin as [Hin | Hin].
    + specialize (Hrej1 X op e Hin). discriminate Hrej1.
    + exact (Hrej2 X op e Hin).
  - destruct res2; [congruence | exact I].
Qed.

Lemma guarded_modify (f : MuseClient -> MuseClient) : guarded (modify f).
Proof. intros t n w. simpl. split; [intros X op e [] | exact I]. Qed.

Lemma quiet_deref {A : Type} (f : MuseClient -> option A) : quiet (deref f).
Proof.
  unfold deref. apply quiet_bind; [apply quiet_gets |].
  intros [a |]; [apply quiet_ret | apply quiet_throw].
Qed.

Lemma quiet_subscribeDisconnected : quiet subscribeDisconnected.
Proof.
  unfold subscribeDisconnected. apply quiet_bind; [apply quiet_deref |].
  intros g t n w. simpl. split; [reflexivity | intros X op e []].
Qed.

Lemma quiet_bindElectrodes (service : BluetoothRemoteGATTService) (channels : list nat) :
  forall eegObservables : list Observable,
    quiet (bindElectrodes service channels eegObservables).
Proof.
  induction channels as [| channelIndex channels IH]; intros eegObservables; simpl.
  - apply quiet_ret.
  - apply quiet_bind.
    { destruct (nth_error EEG_CHARACTERISTICS channelIndex);
        [apply quiet_ret | apply quiet_throw]. }
    intros characteristicId. apply quiet_bind; [apply quiet_await |].
    intros eegChar. apply quiet_bind; [apply quiet_await |].
    intros o. apply quiet_bind; [apply quiet_modify; reflexivity |].
    intros _. apply IH.
Qed.

Create HintDb quiet.
#[local] Hint Resolve quiet_ret quiet_throw quiet_gets quiet_await quiet_deref
  quiet_subscribeDisconnected quiet_bindElectrodes : quiet.

Ltac quiet_step :=
  first [ apply guarded_bind; [ | intros ? ]
        | apply guarded_modify ].

Ltac quiet_task :=
  repeat first [ solve [ auto with quiet ]
               | apply quiet_modify; reflexivity
               | apply quiet_bind; [ | intros ? ] ].

Lemma connect_guarded (g : option BluetoothRemoteGATTServer) : guarded (connect g).
Proof.
  unfold connect.
  quiet_step.
  { destruct g as [g |]; quiet_task. }
  repeat (quiet_step; [ solve [ quiet_task ] | ]).
  quiet_step.
Qed.

(** C4: in a run of [connect] in which the transport rejects some step
    (in particular a [getCharacteristic] or notification-start step of any
    channel), [connect] fails with that rejection and [connectionStatus]
    is exactly as before: its value is unchanged and nothing, so no [true],
    has been emitted. *)
Theorem connect_failure_never_connected
    (t : Transport) (n : nat) (g : option BluetoothRemoteGATTServer) (w : World)
    (X : Type) (op : Op X) (e : Error) :
  In (Rejected op e) (fst (fst (exec t n (connect g w)))) ->
  snd (fst (exec t n (connect g w))) = inl e
  /\ connectionStatus (client (snd (exec t n (connect g w)))) = connectionStatus (client w)
  /\ emitted (connectionStatus (client (snd (exec t n (connect g w)))))
     = emitted (connectionStatus (client w))
  /\ value (connectionStatus (client (snd (exec t n (connect g w)))))
     = value (connectionStatus (client w)).
Proof.
  intros Hin. pose proof (connect_guarded g t n w) as H.
  destruct (exec t n (connect g w)) as [[tr res] w']. simpl in *.
  destruct H as [Hrej Hst]. specialize (Hrej X op e Hin). subst res.
  rewrite Hst. repeat split.
Qed.

(** ** [start] *)

(** C9: on a connected client, with a transport that accepts the writes,
    [start] issues exactly four writes on the control characteristic, for
    the commands [h], [p20], [s] and [d] in this order, and each write is
    issued only after the one before it has resolved. *)
Theorem start_writes_in_order (encodeCommand : string -> list Byte.byte)
    (t : Transport) (n : nat) (w : World) (ch : BluetoothRemoteGATTCharacteristic) :
  controlChar (client w) = Some ch ->
  (forall (k : nat) (payload : list Byte.byte),
      t k unit (writeValue ch payload) = inr tt) ->
  fst (fst (exec t n (start encodeCommand w))) =
    [ Issued (writeValue ch (encodeCommand "h"));
      Resolved (writeValue ch (encodeCommand "h"));
      Issued (writeValue ch (encodeCommand "p20"));
      Resolved (writeValue ch (encodeCommand "p20"));
      Issued (writeValue ch (encodeCommand "s"));
      Resolved (writeValue ch (encodeCommand "s"));
      Issued (writeValue ch (encodeCommand "d"));
      Resolved (writeValue ch (encodeCommand "d")) ]
  /\ snd (fst (exec t n (start encodeCommand w))) = inr tt
  /\ snd (exec t n (start encodeCommand w)) = w.
Proof.
  intros Hch Hok.
  unfold start, pause, resume, sendCommand, deref, bind, gets, await, ret.
  simpl. rewrite Hch. simpl. rewrite !Hok. simpl.
  rewrite Hch. simpl. rewrite !Hok. simpl.
  rewrite Hch. simpl. rewrite !Hok. simpl.
  rewrite Hch. simpl. rewrite !Hok. simpl.
  repeat split.
Qed.

(** ** Disconnecting *)

Lemma handlers_keep_sequence (d : BluetoothDevice) (ls : list BluetoothDevice) :
  forall c : MuseClient,
    let c' := fold_left (fun c l => if same_device d l then onGattServerDisconnected c else c)
                        ls c in
    lastIndex c' = lastIndex c /\ lastTimestamp c' = lastTimestamp c.
Proof.
  induction ls as [| l ls IH]; intros c; simpl; [split; reflexivity |].
  destruct (IH (if same_device d l then onGattServerDisconnected c else c)) as [Hi Ht].
  rewrite Hi, Ht. destruct (same_device d l); split; reflexivity.
Qed.

(** The handler of the transport's disconnect event clears [gatt] and emits
    [false], and does not touch the sequencing fields. *)
Lemma gattserverdisconnected_keeps_sequence (d : BluetoothDevice) (w : World) :
  lastIndex (client (gattserverdisconnected d w)) = lastIndex (client w)
  /\ lastTimestamp (client (gattserverdisconnected d w)) = lastTimestamp (client w).
Proof. unfold gattserverdisconnected. simpl. apply handlers_keep_sequence. Qed.

(** [disconnect()] on a client that holds a [gatt] clears them. *)
Lemma disconnect_resets_sequence (dispatch : bool) (w : World) :
  gatt (client w) <> None ->
  lastIndex (client (disconnect dispatch w)) = None
  /\ lastTimestamp (client (disconnect dispatch w)) = None.
Proof.
  intros Hg. unfold disconnect. destruct (gatt (client w)) as [g |]; [| contradiction].
  destruct dispatch; simpl; [| split; reflexivity].
  apply (handlers_keep_sequence (device g) (listeners w)
           (set_sequence (client w) None None)).
Qed.


(** C2, what the client does: after a successful [connect] and one EEG
    notification, the transport's own disconnect event takes the session
    from connected to disconnected ([gatt] cleared, [false] emitted) but
    leaves [lastIndex] and [lastTimestamp] set, and they are still set after
    the next [connect]; [disconnect()] in the same state clears both. *)
Theorem transport_disconnect_keeps_sequence_state :
  value (connectionStatus (client streamingWorld)) = true
  /\ lastIndex (client streamingWorld) = Some 10
  /\ gatt (client (gattserverdisconnected museDevice streamingWorld)) = None
  /\ emitted (connectionStatus (client (gattserverdisconnected museDevice streamingWorld)))
     = [true; false]
  /\ lastIndex (client (gattserverdisconnected museDevice streamingWorld)) = Some 10
  /\ lastTimestamp (client (gattserverdisconnected museDevice streamingWorld))
     = Some (inject_Z 1000 - READING_DELTA)%Q
  /\ lastIndex (client (snd (exec okTransport 0
        (connect (Some museGatt) (gattserverdisconnected museDevice streamingWorld)))))
     = Some 10
  /\ lastIndex (client (disconnect false streamingWorld)) = None
  /\ lastTimestamp (client (disconnect false streamingWorld)) = None.
Proof. vm_compute. repeat split. Qed.

(** C3, what the client does: two [disconnect()] calls in a row after a
    successful [connect] emit [false] twice, whether the transport dispatches
    its disconnect event from inside [gatt.disconnect()] (the handler and the
    first call each emit) or later (both calls find [gatt] still set). *)
Theorem disconnect_twice_emits_false_twice (dispatch : bool) :
  emitted (connectionStatus (client connectedWorld)) = [true]
  /\ emitted (connectionStatus
       (client (disconnect dispatch (disconnect dispatch connectedWorld))))
     = [true; false; false]
  /\ count_occ bool_dec
       (emitted (connectionStatus
          (client (disconnect dispatch (disconnect dispatch connectedWorld))))) false
     = 2%nat.
Proof. destruct dispatch; vm_compute; repeat split. Qed.

(** * The theorems at concrete inputs *)

Lemma connect_failure_never_connected_example :
  snd (fst (exec noTelemetryTransport 0 (connect (Some museGatt) (newWorld newMuseClient))))
    = inl "NotFoundError"
  /\ connectionStatus
       (client (snd (exec noTelemetryTransport 0
                       (connect (Some museGatt) (newWorld newMuseClient)))))
     = connectionStatus (client (newWorld newMuseClient))
  /\ emitted (connectionStatus
       (client (snd (exec noTelemetryTransport 0
                       (connect (Some museGatt) (newWorld newMuseClient))))))
     = emitted (connectionStatus (client (newWorld newMuseClient)))
  /\ value (connectionStatus
       (client (snd (exec noTelemetryTransport 0
                       (connect (Some museGatt) (newWorld newMuseClient))))))
     = value (connectionStatus (client (newWorld newMuseClient))).
Proof.
  apply (@connect_failure_never_connected noTelemetryTransport 0 (Some museGatt)
           (newWorld newMuseClient) _
           (getCharacteristic {| service_server := museGatt; service_uuid := MUSE_SERVICE |}
                              TELEMETRY_CHARACTERISTIC)
           "NotFoundError").
  vm_compute. do 7 right. left. reflexivity.
Defined.

Lemma wraparound_FFF0_0005_example :
  (fst (getTimestamp 2000 0x0005 (streamingClient 0xFFF0 1000)) == 1000 + 21 * READING_DELTA)%Q
  /\ lastIndex (snd (getTimestamp 2000 0x0005 (streamingClient 0xFFF0 1000))) = Some 0x10005.
Proof.
  destruct (@wraparound_FFF0_0005 2000 (streamingClient 0xFFF0 1000) 1000
              (conj eq_refl eq_refl)) as [_ [_ [Hts [_ [Hli _]]]]].
  split; [exact Hts | exact Hli].
Defined.

Lemma increasing_indices_increasing_timestamps_example :
  let calls := [(1000, 10); (1047, 11); (1141, 13)] in
  let ts := fst (getTimestamps calls (streamingClient 9 900)) in
  (nth 2 ts 0%Q - nth 1 ts 0%Q == READING_DELTA * inject_Z (13 - 11))%Q
  /\ (nth 1 ts 0%Q < nth 2 ts 0%Q)%Q.
Proof.
  apply (@increasing_indices_increasing_timestamps
           [(1000, 10); (1047, 11); (1141, 13)] (streamingClient 9 900) 1%nat).
  - simpl. repeat constructor.
  - intros li i Hli Hin. injection Hli as <-. simpl in Hin.
    destruct Hin as [<- | [<- | [<- | []]]]; lia.
  - simpl. lia.
Defined.

Lemma late_index_interpolated_example :
  unwrap 20 18 < 20
  /\ fst (getTimestamp 5000 18 (streamingClient 20 1000))
     = (1000 - READING_DELTA * inject_Z (20 - unwrap 20 18))%Q
  /\ (fst (getTimestamp 5000 18 (streamingClient 20 1000)) < 1000)%Q
  /\ snd (getTimestamp 5000 18 (streamingClient 20 1000)) = streamingClient 20 1000.
Proof.
  assert (Hlate : unwrap 20 18 < 20) by (rewrite unwrap_noop; lia).
  destruct (@late_index_interpolated 5000 18 (streamingClient 20 1000) 20 1000
              (conj eq_refl eq_refl) Hlate) as [_ [Hts [Hlt [Hc _]]]].
  split; [exact Hlate |]. split; [exact Hts |]. split; [exact Hlt | exact Hc].
Defined.

Lemma stored_timestamp_monotone_example :
  consistent newMuseClient
  /\ clockLe (nth 1 (storedTimestamps [(1000, 10); (1010, 9); (1100, 12)] newMuseClient) None)
             (nth 2 (storedTimestamps [(1000, 10); (1010, 9); (1100, 12)] newMuseClient) None).
Proof.
  assert (Hc : consistent newMuseClient) by (split; intros _; reflexivity).
  split; [exact Hc |].
  apply (@stored_timestamp_monotone [(1000, 10); (1010, 9); (1100, 12)]
           newMuseClient 1%nat Hc).
  simpl. lia.
Defined.

Lemma start_writes_in_order_example :
  fst (fst (exec okTransport 0 (start asciiCommand connectedWorld))) =
    [ Issued (writeValue {| uuid := CONTROL_CHARACTERISTIC |} (asciiCommand "h"));
      Resolved (writeValue {| uuid := CONTROL_CHARACTERISTIC |} (asciiCommand "h"));
      Issued (writeValue {| uuid := CONTROL_CHARACTERISTIC |} (asciiCommand "p20"));
      Resolved (writeValue {| uuid := CONTROL_CHARACTERISTIC |} (asciiCommand "p20"));
      Issued (writeValue {| uuid := CONTROL_CHARACTERISTIC |} (asciiCommand "s"));
      Resolved (writeValue {| uuid := CONTROL_CHARACTERISTIC |} (asciiCommand "s"));
      Issued (writeValue {| uuid := CONTROL_CHARACTERISTIC |} (asciiCommand "d"));
      Resolved (writeValue {| uuid := CONTROL_CHARACTERISTIC |} (asciiCommand "d")) ]
  /\ snd (fst (exec okTransport 0 (start asciiCommand connectedWorld))) = inr tt
  /\ snd (exec okTransport 0 (start asciiCommand connectedWorld)) = connectedWorld.
Proof.
  apply (@start_writes_in_order asciiCommand okTransport 0 connectedWorld
           {| uuid := CONTROL_CHARACTERISTIC |}).
  - vm_compute. reflexivity.
  - intros k payload. reflexivity.
Defined.

(** * Further properties of [getTimestamp] *)

(** ** What the wrap-around loop computes *)

(** The loop adds 0x10000 the least number of times that brings the index to
    within 0x1000 of [lastIndex]: the result is the raw index plus a multiple
    of 0x10000, is at most 0x1000 behind, and no smaller multiple is. *)
Theorem unwrap_least_multiple (li ev : Z) :
  exists k : nat,
    unwrap li ev = ev + Z.of_nat k * 0x10000
    /\ li - unwrap li ev <= 0x1000
    /\ forall j : nat, (j < k)%nat -> li - (ev + Z.of_nat j * 0x10000) > 0x1000.
Proof.
  funelim (unwrap li ev).
  - destruct H as [k [Hk [Hb Hmin]]]. exists (S k). split; [| split].
    + rewrite Hk. lia.
    + exact Hb.
    + intros j Hj. destruct j as [| j]; [lia |].
      specialize (Hmin j ltac:(lia)). lia.
  - exists O. split; [| split]; [lia | lia |]. intros j Hj. lia.
Qed.

Lemma unwrap_unique (k : nat) :
  forall li ev : Z,
    li - (ev + Z.of_nat k * 0x10000) <= 0x1000 ->
    (forall j : nat, (j < k)%nat -> li - (ev + Z.of_nat j * 0x10000) > 0x1000) ->
    unwrap li ev = ev + Z.of_nat k * 0x10000.
Proof.
  induction k as [| k IH]; intros li ev Hb Hmin.
  - rewrite unwrap_noop by lia. lia.
  - rewrite unwrap_step by (specialize (Hmin O ltac:(lia)); lia).
    rewrite (IH li (ev + 0x10000)).
    + lia.
    + lia.
    + intros j Hj. specialize (Hmin (S j) ltac:(lia)). lia.
Qed.

(** The index sent for group [a] is unwrapped to [a] itself whenever [a] is
    at most 0x1000 behind and less than 0xF000 ahead of the stored index. *)
Lemma unwrap_wireIndex (li a : Z) :
  0 <= a -> - 0x1000 <= a - li < 0xF000 -> unwrap li (wireIndex a) = a.
Proof.
  intros Ha Hwin. unfold wireIndex.
  pose proof (Z.div_mod a 0x10000 ltac:(lia)) as Hdm.
  pose proof (Z.mod_pos_bound a 0x10000 ltac:(lia)) as Hmod.
  assert (Hq : 0 <= a / 0x10000) by (apply Z.div_pos; lia).
  rewrite (@unwrap_unique (Z.to_nat (a / 0x10000)) li (a mod 0x10000)).
  - rewrite Z2Nat.id by exact Hq. lia.
  - rewrite Z2Nat.id by exact Hq. lia.
  - intros j Hj. assert (Hj' : Z.of_nat j < a / 0x10000) by lia. lia.
Qed.

(** ** One call, in terms of the unwrapped index *)

Lemma getTimestamp_line (now ev : Z) (c : MuseClient) (li : Z) (lt : Q) :
  seeded c li lt ->
  exists lt' : Q,
    seeded (snd (getTimestamp now ev c)) (Z.max li (unwrap li ev)) lt'
    /\ (lt' == lt + READING_DELTA * inject_Z (Z.max li (unwrap li ev) - li))%Q
    /\ (fst (getTimestamp now ev c)
        == lt + READING_DELTA * inject_Z (unwrap li ev - li))%Q.
Proof.
  intros Hs. rewrite (getTimestamp_seeded now ev Hs). cbv zeta.
  destruct (unwrap li ev =? li) eqn:Eeq;
    [| destruct (unwrap li ev >? li) eqn:Egt]; simpl fst; simpl snd.
  - apply Z.eqb_eq in Eeq. rewrite Eeq, Z.max_id, Z.sub_diag.
    exists lt. split; [exact Hs |]. change (inject_Z 0) with 0%Q. split; ring.
  - assert (Hmax : Z.max li (unwrap li ev) = unwrap li ev) by lia. rewrite Hmax.
    exists (lt + READING_DELTA * inject_Z (unwrap li ev - li))%Q.
    split; [split; reflexivity |]. split; reflexivity.
  - apply Z.eqb_neq in Eeq.
    assert (Hmax : Z.max li (unwrap li ev) = li) by lia. rewrite Hmax.
    rewrite Z.sub_diag. exists lt. split; [exact Hs |].
    change (inject_Z 0) with 0%Q. split; [ring |].
    rewrite !inject_Z_sub. ring.
Qed.

(** Unwrapping against an unwrapped index gives that index back. *)
Lemma unwrap_again (li ev : Z) : unwrap (unwrap li ev) ev = unwrap li ev.
Proof.
  funelim (unwrap li ev).
  - pose proof (unwrap_ge lastIndex0 (eventIndex + 0x10000)) as Hge.
    rewrite unwrap_step by lia. exact H.
  - apply unwrap_noop. lia.
Qed.

(** After any call both sequencing fields are set, the returned timestamp
    is not later than the stored one, and a stored index has not moved
    backward. *)
Theorem getTimestamp_never_ahead_of_clock (now ev : Z) (c : MuseClient) :
  exists (li' : Z) (lt' : Q),
    seeded (snd (getTimestamp now ev c)) li' lt'
    /\ (fst (getTimestamp now ev c) <= lt')%Q
    /\ forall (li : Z) (lt : Q), seeded c li lt -> li <= li'.
Proof.
  destruct (lastIndex c) as [li |] eqn:Ei; [destruct (lastTimestamp c) as [lt |] eqn:Et |].
  - pose proof (getTimestamp_seeded now ev (conj Ei Et)) as Hg. cbv zeta in Hg.
    assert (Hsame : forall (li0 : Z) (lt0 : Q), seeded c li0 lt0 -> li0 = li).
    { intros li0 lt0 [Hi0 _]. rewrite Ei in Hi0. injection Hi0 as <-. reflexivity. }
    destruct (unwrap li ev =? li) eqn:Eeq;
      [| destruct (unwrap li ev >? li) eqn:Egt]; rewrite Hg; simpl fst; simpl snd.
    + exists li, lt. split; [split; assumption |]. split; [apply Qle_refl |].
      intros li0 lt0 H0. rewrite (Hsame li0 lt0 H0). lia.
    + exists (unwrap li ev), (lt + READING_DELTA * inject_Z (unwrap li ev - li))%Q.
      split; [split; reflexivity |]. split; [apply Qle_refl |].
      intros li0 lt0 H0. rewrite (Hsame li0 lt0 H0). lia.
    + exists li, lt. apply Z.eqb_neq in Eeq.
      split; [split; assumption |]. split.
      * pose proof (delta_times_pos (z := li - unwrap li ev) ltac:(lia)) as Hpos. lra.
      * intros li0 lt0 H0. rewrite (Hsame li0 lt0 H0). lia.
  - rewrite (getTimestamp_unseeded now ev c (or_intror Et)). simpl fst. simpl snd.
    exists ev, (inject_Z now - READING_DELTA)%Q.
    split; [split; reflexivity |]. split; [apply Qle_refl |].
    intros li0 lt0 [_ Ht0]. rewrite Et in Ht0. discriminate Ht0.
  - rewrite (getTimestamp_unseeded now ev c (or_introl Ei)). simpl fst. simpl snd.
    exists ev, (inject_Z now - READING_DELTA)%Q.
    split; [split; reflexivity |]. split; [apply Qle_refl |].
    intros li0 lt0 [Hi0 _]. rewrite Ei in Hi0. discriminate Hi0.
Qed.

(** A duplicate: presenting the index of the previous call again, at any
    later clock reading, returns the timestamp of the previous call and
    changes nothing. *)
Theorem duplicate_index_same_timestamp (now1 now2 ev : Z) (c : MuseClient) :
  getTimestamp now2 ev (snd (getTimestamp now1 ev c))
  = (fst (getTimestamp now1 ev c), snd (getTimestamp now1 ev c)).
Proof.
  assert (Hseeded : forall (c0 : MuseClient) (li : Z) (lt : Q),
            seeded c0 li lt ->
            getTimestamp now2 ev (snd (getTimestamp now1 ev c0))
            = (fst (getTimestamp now1 ev c0), snd (getTimestamp now1 ev c0))).
  { intros c0 li lt Hs.
    pose proof (getTimestamp_seeded now1 ev Hs) as Hg1.
    pose proof (getTimestamp_seeded now2 ev Hs) as Hg2. cbv zeta in Hg1, Hg2.
    destruct (unwrap li ev =? li) eqn:Eeq;
      [| destruct (unwrap li ev >? li) eqn:Egt]; rewrite Hg1; simpl fst; simpl snd.
    - exact Hg2.
    - assert (Hs' : seeded
                (set_sequence c0 (Some (unwrap li ev))
                   (Some (lt + READING_DELTA * inject_Z (unwrap li ev - li))%Q))
                (unwrap li ev) (lt + READING_DELTA * inject_Z (unwrap li ev - li))%Q)
        by (split; reflexivity).
      rewrite (getTimestamp_seeded now2 ev Hs').
      cbv zeta. rewrite unwrap_again, Z.eqb_refl. reflexivity.
    - exact Hg2. }
  assert (Hfresh : lastIndex c = None \/ lastTimestamp c = None ->
            getTimestamp now2 ev (snd (getTimestamp now1 ev c))
            = (fst (getTimestamp now1 ev c), snd (getTimestamp now1 ev c))).
  { intros Hu. rewrite (getTimestamp_unseeded now1 ev c Hu). simpl fst. simpl snd.
    assert (Hs' : seeded
              (set_sequence c (Some ev) (Some (inject_Z now1 - READING_DELTA)%Q))
              ev (inject_Z now1 - READING_DELTA)%Q)
      by (split; reflexivity).
    rewrite (getTimestamp_seeded now2 ev Hs').
    cbv zeta. rewrite unwrap_noop by lia. rewrite Z.eqb_refl. reflexivity. }
  destruct (lastIndex c) as [li |] eqn:Ei; [destruct (lastTimestamp c) as [lt |] eqn:Et |].
  - exact (Hseeded c li lt (conj Ei Et)).
  - apply Hfresh. right. reflexivity.
  - apply Hfresh. left. reflexivity.
Qed.

(** ** Following the device's counter across wrap-arounds *)

Lemma getTimestamps_track (groups : list Z) :
  forall (nows : list Z) (c : MuseClient) (li : Z) (lt : Q),
    seeded c li lt ->
    trackable li groups ->
    List.length nows = List.length groups ->
    Forall2 (fun a ts => (ts == lt + READING_DELTA * inject_Z (a - li))%Q)
            groups (fst (getTimestamps (combine nows (map wireIndex groups)) c)).
Proof.
  induction groups as [| a groups IH]; intros nows c li lt Hs Ht Hlen.
  - destruct nows; simpl; constructor.
  - destruct nows as [| now nows]; [discriminate Hlen |].
    destruct Ht as [Ha [Hwin Ht]]. injection Hlen as Hlen.
    destruct (getTimestamp_line now (wireIndex a) Hs) as [lt' [Hs' [Hlt' Hts]]].
    rewrite (@unwrap_wireIndex li a Ha Hwin) in Hs', Hlt', Hts.
    simpl. destruct (getTimestamp now (wireIndex a) c) as [ts c'] eqn:Eg.
    simpl in Hs', Hts. specialize (IH nows c' _ _ Hs' Ht Hlen).
    destruct (getTimestamps (combine nows (map wireIndex groups)) c') as [tss c''] eqn:Er.
    simpl in IH |- *. constructor; [exact Hts |].
    eapply Forall2_impl; [| exact IH].
    intros b t Hb. simpl in Hb. eapply affine_shift; [exact Hlt' | exact Hb].
Qed.

(** With group [li] stamped [lt] in store, feed the 16-bit indices of any
    groups that stay at most 0x1000 behind and less than 0xF000 ahead of the
    highest group seen so far: whatever the number of wrap-arounds, group
    [a] is stamped [lt + READING_DELTA * (a - li)]. *)
Theorem timestamps_follow_group_numbers
    (groups nows : list Z) (c : MuseClient) (li : Z) (lt : Q) (k : nat) :
  seeded c li lt ->
  trackable li groups ->
  List.length nows = List.length groups ->
  (k < List.length groups)%nat ->
  (nth k (fst (getTimestamps (combine nows (map wireIndex groups)) c)) 0%Q
   == lt + READING_DELTA * inject_Z (nth k groups 0%Z - li))%Q.
Proof.
  intros Hs Ht Hlen Hk.
  exact (Forall2_nth 0 0%Q (getTimestamps_track groups nows Hs Ht Hlen) Hk).
Qed.

Lemma trackable_consecutive (n : nat) :
  forall a li : Z, 0 <= a -> li = a - 1 -> trackable li (consecutive a n).
Proof.
  induction n as [| n IH]; intros a li Ha Hli; simpl; [exact I |].
  split; [exact Ha |]. split; [lia |]. apply IH; lia.
Qed.

Lemma nth_consecutive (n : nat) :
  forall (a : Z) (k : nat), (k < n)%nat -> nth k (consecutive a n) 0 = a + Z.of_nat k.
Proof.
  induction n as [| n IH]; intros a k Hk; [lia |].
  destruct k as [| k]; simpl; [lia |]. rewrite IH by lia. lia.
Qed.

Lemma length_consecutive (n : nat) : forall a : Z, List.length (consecutive a n) = n.
Proof. induction n as [| n IH]; intros a; simpl; [reflexivity | now rewrite IH]. Qed.

(** A new session: the device counts its groups up from any 16-bit value
    [start], wrapping at 0x10000, and every group arrives once and in order.
    The first group is stamped one interval before the clock reading of its
    arrival, and the [k]-th group after it exactly [k] intervals later,
    whatever the later clock readings are. *)
Theorem consecutive_groups_evenly_spaced
    (start now0 : Z) (nows : list Z) (c : MuseClient) (k : nat) :
  lastIndex c = None ->
  0 <= start < 0x10000 ->
  (k <= List.length nows)%nat ->
  (nth k (fst (getTimestamps
                 (combine (now0 :: nows)
                          (map wireIndex (consecutive start (S (List.length nows))))) c))
         0%Q
   == inject_Z now0 - READING_DELTA + READING_DELTA * inject_Z (Z.of_nat k))%Q.
Proof.
  intros Hfresh Hstart Hk. simpl.
  assert (Hw : wireIndex start = start) by (unfold wireIndex; apply Z.mod_small; lia).
  rewrite Hw. rewrite (getTimestamp_unseeded now0 start c (or_introl Hfresh)).
  assert (Htr : trackable start (consecutive (start + 1) (List.length nows)))
    by (apply trackable_consecutive; lia).
  pose proof (@getTimestamps_track (consecutive (start + 1) (List.length nows)) nows
    (set_sequence c (Some start) (Some (inject_Z now0 - READING_DELTA)%Q))
    start (inject_Z now0 - READING_DELTA)%Q (conj eq_refl eq_refl) Htr
    (eq_sym (length_consecutive (List.length nows) (start + 1)))) as Htrack.
  destruct (getTimestamps _ _) as [tss c''] eqn:Er. simpl in Htrack |- *.
  destruct k as [| k]; simpl.
  - change (inject_Z 0) with 0%Q. ring.
  - assert (Hk' : (k < List.length (consecutive (start + 1) (List.length nows)))%nat)
      by (rewrite length_consecutive; lia).
    pose proof (Forall2_nth 0 0%Q Htrack Hk') as Hnth. simpl in Hnth.
    rewrite Hnth. rewrite nth_consecutive by lia.
    replace (start + 1 + Z.of_nat k - start) with (Z.of_nat (S k)) by lia.
    reflexivity.
Qed.

(** * Electrodes on the shared sequencing state *)

Lemma eegStream_track (dec : list Byte.byte -> list Q) (tagged : list (EEGEvent * Z)) :
  forall (c : MuseClient) (li : Z) (lt : Q),
    seeded c li lt ->
    Forall carries tagged ->
    trackable li (map snd tagged) ->
    Forall2 (tracked li lt) tagged (fst (eegStream dec (map fst tagged) c)).
Proof.
  induction tagged as [| [ev a] tagged IH]; intros c li lt Hs Hcar Ht.
  - constructor.
  - inversion Hcar as [| p ps Hev Hrest]; subst. unfold carries in Hev. simpl in Hev.
    destruct Ht as [Ha [Hwin Ht]].
    destruct (getTimestamp_line (ev_now ev) (wireIndex a) Hs) as [lt' [Hs' [Hlt' Hts]]].
    rewrite (@unwrap_wireIndex li a Ha Hwin) in Hs', Hlt', Hts.
    simpl. unfold eegNotification. rewrite Hev.
    destruct (getTimestamp (ev_now ev) (wireIndex a) c) as [ts c'] eqn:Eg.
    simpl in Hs', Hts. specialize (IH c' _ _ Hs' Hrest Ht).
    destruct (eegStream dec (map fst tagged) c') as [rs c''] eqn:Er. simpl in IH |- *.
    constructor.
    + split; [reflexivity | exact Hts].
    + eapply Forall2_impl; [| exact IH].
      intros p r [Hel Hr]. split; [exact Hel |].
      eapply affine_shift; [exact Hlt' | exact Hr].
Qed.

Lemma tracked_same_timestamps (li : Z) (lt : Q) (tagged : list (EEGEvent * Z)) :
  forall rs1 rs2 : list EEGReading,
    Forall2 (tracked li lt) tagged rs1 ->
    Forall2 (tracked li lt) tagged rs2 ->
    Forall2 Qeq (map timestamp rs1) (map timestamp rs2).
Proof.
  induction tagged as [| p tagged IH]; intros rs1 rs2 H1 H2.
  - inversion H1; inversion H2; subst. constructor.
  - inversion H1 as [| p1 r1 l1 rs1' [_ Hr1] Hrest1]; subst.
    inversion H2 as [| p2 r2 l2 rs2' [_ Hr2] Hrest2]; subst.
    simpl. constructor; [| now apply IH].
    rewrite Hr1, Hr2. reflexivity.
Qed.

Lemma eventsOf_tagged (ch : nat) (tagged : list (EEGEvent * Z)) :
  eventsOf ch (map fst tagged) = map fst (filter (onChannel ch) tagged).
Proof.
  unfold eventsOf, onChannel.
  induction tagged as [| [ev a] tagged IH]; simpl; [reflexivity |].
  destruct (Nat.eqb (ev_channel ev) ch); simpl; rewrite IH; reflexivity.
Qed.

Lemma shared_sequence_seeded (dec : list Byte.byte -> list Q)
    (c : MuseClient) (li : Z) (lt : Q) (tagged : list (EEGEvent * Z)) (ch : nat) :
  seeded c li lt ->
  Forall carries tagged ->
  trackable li (map snd tagged) ->
  trackable li (map snd (filter (onChannel ch) tagged)) ->
  Forall2 Qeq (timestampsOf ch (fst (eegStream dec (map fst tagged) c)))
              (timestampsOf ch (fst (eegStream dec (eventsOf ch (map fst tagged)) c)))
  /\ List.length (timestampsOf ch (fst (eegStream dec (map fst tagged) c)))
     = List.length (eventsOf ch (map fst tagged)).
Proof.
  intros Hs Hcar Hall Hown.
  pose proof (eegStream_track dec Hs Hcar Hall) as HFall.
  pose proof (eegStream_track dec Hs (Forall_filter_keep (onChannel ch) Hcar) Hown) as HFown.
  rewrite <- eventsOf_tagged in HFown.
  assert (Hsel : forall p r, tracked li lt p r ->
            onChannel ch p = Nat.eqb (electrode r) ch).
  { intros p r [Hel _]. unfold onChannel. rewrite Hel. reflexivity. }
  pose proof (Forall2_filter _ _ Hsel HFall) as HFall'.
  pose proof (Forall2_filter _ _ Hsel HFown) as HFown'.
  rewrite filter_idempotent in HFown'.
  split.
  - unfold timestampsOf. exact (tracked_same_timestamps HFall' HFown').
  - unfold timestampsOf. rewrite length_map, eventsOf_tagged, length_map.
    symmetry. exact (Forall2_length HFall').
Qed.

(** C1, as the client implements it.  All electrodes stamp their groups
    through the one [lastIndex] / [lastTimestamp] pair of the client.  Let
    the notifications carry the 16-bit indices of groups numbered from the
    group in store or, with nothing in store, from the group of the first
    notification, sent by electrode [ch] itself.  If the group numbers, in
    the interleaved sequence as in the sequence of electrode [ch] alone, stay
    at most 0x1000 behind and less than 0xF000 ahead of the highest one seen
    so far, across any number of wrap-arounds, then the notifications of the
    other electrodes do not change the timestamps of electrode [ch]: the
    merged stream stamps every one of its groups as the stream of electrode
    [ch] alone would. *)
Theorem shared_sequence_of_trackable_groups (dec : list Byte.byte -> list Q)
    (c : MuseClient) (li : Z) (tagged : list (EEGEvent * Z)) (ch : nat) :
  startsFrom c ch tagged li ->
  Forall carries tagged ->
  trackable li (map snd tagged) ->
  trackable li (map snd (filter (onChannel ch) tagged)) ->
  Forall2 Qeq (timestampsOf ch (fst (eegStream dec (map fst tagged) c)))
              (timestampsOf ch (fst (eegStream dec (eventsOf ch (map fst tagged)) c)))
  /\ List.length (timestampsOf ch (fst (eegStream dec (map fst tagged) c)))
     = List.length (eventsOf ch (map fst tagged)).
Proof.
  intros [[lt Hs] | [Hfresh Hfirst]] Hcar Hall Hown.
  - exact (shared_sequence_seeded dec ch Hs Hcar Hall Hown).
  - destruct tagged as [| [ev a] tagged].
    + simpl. split; [constructor | reflexivity].
    + destruct Hfirst as [Hch [Ha Hli]]. subst a.
      inversion Hcar as [| p ps Hev Hrest]; subst.
      unfold carries in Hev. simpl in Hev.
      assert (Hwire : wireIndex li = li) by (unfold wireIndex; apply Z.mod_small; lia).
      rewrite Hwire in Hev.
      assert (Hon : onChannel (ev_channel ev) (ev, li) = true)
        by (unfold onChannel; simpl; apply Nat.eqb_refl).
      simpl in Hall. destruct Hall as [_ [_ Hall]]. rewrite Z.max_id in Hall.
      simpl in Hown. rewrite Hon in Hown. simpl in Hown.
      destruct Hown as [_ [_ Hown]]. rewrite Z.max_id in Hown.
      assert (Hs1 : seeded
                (set_sequence c (Some li) (Some (inject_Z (ev_now ev) - READING_DELTA)%Q))
                li (inject_Z (ev_now ev) - READING_DELTA)%Q)
        by (split; reflexivity).
      destruct (shared_sequence_seeded dec (ev_channel ev) Hs1 Hrest Hall Hown)
        as [Hsame Hlen].
      unfold eventsOf in *. simpl. rewrite Nat.eqb_refl. simpl.
      unfold eegNotification. rewrite Hev.
      rewrite (getTimestamp_unseeded (ev_now ev) li c Hfresh).
      destruct (eegStream dec (map fst tagged) _) as [rs1 c1] eqn:E1.
      destruct (eegStream dec (filter _ (map fst tagged)) _) as [rs2 c2] eqn:E2.
      simpl in Hsame, Hlen |- *. unfold timestampsOf in *. simpl.
      rewrite Nat.eqb_refl. simpl. split.
      * constructor; [reflexivity | exact Hsame].
      * rewrite Hlen. reflexivity.
Qed.

(** Both conditions on the group numbers are needed.  For the
    notifications of [farAhead], where the timestamps of electrode 0 differ
    between the merged stream and its own, the numbering that the merged
    sequence can follow is not one the sequence of electrode 0 alone can
    follow, and the other way round. *)
Lemma both_sequences_must_be_trackable :
  (startsFrom newMuseClient 0 farAheadMerged 10
   /\ Forall carries farAheadMerged
   /\ trackable 10 (map snd farAheadMerged)
   /\ ~ trackable 10 (map snd (filter (onChannel 0) farAheadMerged)))
  /\ (startsFrom newMuseClient 0 farAheadOwn 10
      /\ Forall carries farAheadOwn
      /\ trackable 10 (map snd (filter (onChannel 0) farAheadOwn))
      /\ ~ trackable 10 (map snd farAheadOwn))
  /\ map fst farAheadMerged = farAhead
  /\ map fst farAheadOwn = farAhead.
Proof.
  split; [| split; [| split; reflexivity]].
  - split; [right; split; [left; reflexivity | cbn; repeat split; lia] |].
    split; [unfold farAheadMerged, farAhead; cbn [combine];
            repeat (constructor; [reflexivity |]); constructor |].
    split; [cbn; repeat split; lia |].
    cbn. intros [_ [_ [_ [H _]]]]. lia.
  - split; [right; split; [left; reflexivity | cbn; repeat split; lia] |].
    split; [unfold farAheadOwn, farAhead; cbn [combine];
            repeat (constructor; [reflexivity |]); constructor |].
    split; [cbn; repeat split; lia |].
    cbn. intros [_ [_ [_ [_ [_ [H _]]]]]]. lia.
Qed.

(** * Further properties of the electrode stream *)

Lemma getUint16_short (data : list Byte.byte) :
  getUint16 data = None <-> (List.length data < 2)%nat.
Proof.
  destruct data as [| b0 [| b1 data]]; cbn [getUint16 List.length];
    split; try discriminate; try reflexivity; lia.
Qed.

Lemma getUint16_bound (data : list Byte.byte) (i : Z) :
  getUint16 data = Some i -> 0 <= i < 0x10000.
Proof.
  destruct data as [| b0 [| b1 data]]; cbn [getUint16]; try discriminate.
  intros Hi.
  replace i with (256 * Z.of_N (Byte.to_N b0) + Z.of_N (Byte.to_N b1)) by congruence.
  pose proof (Byte.to_N_bounded b0). pose proof (Byte.to_N_bounded b1). lia.
Qed.

(** [getUint16] reads an index exactly when the packet has two bytes or
    more; the index is a 16-bit value, and bytes after the second do not
    matter. *)
Theorem getUint16_range (data : list Byte.byte) :
  (getUint16 data = None <-> (List.length data < 2)%nat)
  /\ (forall i : Z, getUint16 data = Some i -> 0 <= i < 0x10000)
  /\ getUint16 (firstn 2 data) = getUint16 data.
Proof.
  split; [apply getUint16_short |]. split; [apply getUint16_bound |].
  destruct data as [| b0 [| b1 data]]; reflexivity.
Qed.

Lemma eegStream_readings (dec : list Byte.byte -> list Q) (evs : list EEGEvent) :
  forall c : MuseClient,
    Forall (fun ev => (2 <= List.length (ev_data ev))%nat) evs ->
    Forall2 (fun ev r =>
               electrode r = ev_channel ev
               /\ getUint16 (ev_data ev) = Some (index r)
               /\ samples r = dec (skipn 2 (ev_data ev)))
            evs (fst (eegStream dec evs c)).
Proof.
  induction evs as [| ev evs IH]; intros c Hlen.
  - constructor.
  - inversion Hlen as [| ev' evs' Hev Hrest]; subst.
    simpl. unfold eegNotification.
    destruct (getUint16 (ev_data ev)) as [i |] eqn:Eget.
    + destruct (getTimestamp (ev_now ev) i c) as [ts c'] eqn:Eg.
      specialize (IH c' Hrest).
      destruct (eegStream dec evs c') as [rs c''] eqn:Er. simpl in IH |- *.
      constructor; [| exact IH]. simpl. repeat split. exact Eget.
    + apply getUint16_short in Eget. lia.
Qed.

Lemma readings_of_notifications (dec : list Byte.byte -> list Q)
    (evs : list EEGEvent) (rs : list EEGReading) :
  Forall2 (fun ev r =>
             electrode r = ev_channel ev
             /\ getUint16 (ev_data ev) = Some (index r)
             /\ samples r = dec (skipn 2 (ev_data ev)))
          evs rs ->
  List.length rs = List.length evs
  /\ map electrode rs = map ev_channel evs
  /\ map (fun r => Some (index r)) rs = map (fun ev => getUint16 (ev_data ev)) evs
  /\ map samples rs = map (fun ev => dec (skipn 2 (ev_data ev))) evs
  /\ Forall (fun r => 0 <= index r < 0x10000) rs.
Proof.
  induction 1 as [| ev r evs rs [Hel [Hidx Hsam]] _ IH]; simpl.
  - repeat split. constructor.
  - destruct IH as [IH1 [IH2 [IH3 [IH4 IH5]]]].
    rewrite IH1, IH2, IH3, IH4, Hel, Hidx, Hsam. repeat split.
    constructor; [| exact IH5].
    exact (getUint16_bound _ Hidx).
Qed.

(** When every packet has at least its two index bytes, the merged stream
    carries exactly one reading per notification, in arrival order, each
    with the electrode of its notification, the 16-bit index as sent (never
    the unwrapped one) and the samples decoded from the bytes after the
    index. *)
Theorem eegStream_one_reading_per_notification
    (dec : list Byte.byte -> list Q) (evs : list EEGEvent) (c : MuseClient) :
  Forall (fun ev => (2 <= List.length (ev_data ev))%nat) evs ->
  List.length (fst (eegStream dec evs c)) = List.length evs
  /\ map electrode (fst (eegStream dec evs c)) = map ev_channel evs
  /\ map (fun r => Some (index r)) (fst (eegStream dec evs c))
     = map (fun ev => getUint16 (ev_data ev)) evs
  /\ map samples (fst (eegStream dec evs c))
     = map (fun ev => dec (skipn 2 (ev_data ev))) evs
  /\ Forall (fun r => 0 <= index r < 0x10000) (fst (eegStream dec evs c)).
Proof.
  intros Hlen. apply readings_of_notifications. exact (eegStream_readings dec c Hlen).
Qed.

Lemma inWindow_length (lo : Z) (evs : list EEGEvent) :
  Forall (inWindow lo) evs ->
  Forall (fun ev => (2 <= List.length (ev_data ev))%nat) evs.
Proof.
  intros H. eapply Forall_impl; [| exact H].
  intros ev [i [Hi _]].
  destruct (Nat.lt_ge_cases (List.length (ev_data ev)) 2) as [Hlt | Hge]; [| exact Hge].
  apply getUint16_short in Hlt. rewrite Hlt in Hi. discriminate Hi.
Qed.

Lemma eegStream_line (dec : list Byte.byte -> list Q) (evs : list EEGEvent)
    (c : MuseClient) (lo : Z) :
  (forall (li : Z) (lt : Q), seeded c li lt -> lo <= li <= lo + 0x1000) ->
  Forall (inWindow lo) evs ->
  exists (li : Z) (lt : Q), Forall2 (stamped li lt) evs (fst (eegStream dec evs c)).
Proof.
  intros Hc Hwin.
  assert (Hfresh : lastIndex c = None \/ lastTimestamp c = None ->
            exists (li : Z) (lt : Q), Forall2 (stamped li lt) evs (fst (eegStream dec evs c))).
  { intros Hu. destruct evs as [| ev evs]; [exists 0, 0%Q; constructor |].
    inversion Hwin as [| ev' evs' [i [Hget Hi]] Hrest]; subst.
    exists i, (inject_Z (ev_now ev) - READING_DELTA)%Q.
    simpl. unfold eegNotification. rewrite Hget.
    rewrite (getTimestamp_unseeded (ev_now ev) i c Hu).
    assert (Hs' : seeded
              (set_sequence c (Some i) (Some (inject_Z (ev_now ev) - READING_DELTA)%Q))
              i (inject_Z (ev_now ev) - READING_DELTA)%Q)
      by (split; reflexivity).
    pose proof (eegStream_affine dec Hs' Hi Hrest) as Haff.
    destruct (eegStream dec evs _) as [rs c''] eqn:Er. simpl in Haff |- *.
    constructor; [| exact Haff].
    split; [reflexivity |]. exists i. split; [exact Hget |]. simpl.
    rewrite Z.sub_diag. change (inject_Z 0) with 0%Q. ring. }
  destruct (lastIndex c) as [li |] eqn:Ei; [destruct (lastTimestamp c) as [lt |] eqn:Et |].
  - exists li, lt.
    exact (eegStream_affine dec (conj Ei Et) (Hc li lt (conj Ei Et)) Hwin).
  - apply Hfresh. right. reflexivity.
  - apply Hfresh. left. reflexivity.
Qed.

Lemma Forall2_both {A B : Type} (P Q : A -> B -> Prop) (l1 : list A) (l2 : list B) :
  Forall2 P l1 l2 -> Forall2 Q l1 l2 -> Forall2 (fun a b => P a b /\ Q a b) l1 l2.
Proof.
  induction 1 as [| a b l1 l2 Hab _ IH]; intros HQ; inversion HQ; subst;
    constructor; [split; assumption | now apply IH].
Qed.

Lemma Forall2_right {A B : Type} (P : A -> B -> Prop) (R : B -> Prop)
    (l1 : list A) (l2 : list B) :
  (forall a b, P a b -> R b) -> Forall2 P l1 l2 -> Forall R l2.
Proof.
  intros HPR. induction 1 as [| a b l1 l2 Hab _ IH]; constructor;
    [exact (HPR a b Hab) | exact IH].
Qed.

(** Alignment across electrodes.  While the stored index (if any) and the
    indices of all notifications stay within one window of 0x1000 groups,
    the timestamp of a reading depends on its index alone, whichever
    electrode sent it and in whatever order the notifications arrived:
    readings of the same group carry equal timestamps, and a reading of a
    later group a later one. *)
Theorem same_group_same_timestamp (dec : list Byte.byte -> list Q)
    (evs : list EEGEvent) (c : MuseClient) (lo : Z) (r1 r2 : EEGReading) :
  (forall (li : Z) (lt : Q), seeded c li lt -> lo <= li <= lo + 0x1000) ->
  Forall (inWindow lo) evs ->
  In r1 (fst (eegStream dec evs c)) ->
  In r2 (fst (eegStream dec evs c)) ->
  (timestamp r2 - timestamp r1 == READING_DELTA * inject_Z (index r2 - index r1))%Q
  /\ (index r1 = index r2 -> (timestamp r1 == timestamp r2)%Q)
  /\ (index r1 < index r2 -> (timestamp r1 < timestamp r2)%Q).
Proof.
  intros Hc Hwin Hin1 Hin2.
  destruct (eegStream_line dec Hc Hwin) as [li [lt Hline]].
  pose proof (eegStream_readings dec c (inWindow_length Hwin)) as Hread.
  assert (Hall : Forall (fun r =>
            (timestamp r == lt + READING_DELTA * inject_Z (index r - li))%Q)
            (fst (eegStream dec evs c))).
  { eapply Forall2_right; [| exact (Forall2_both Hline Hread)].
    intros ev r [[_ [i [Hi Hts]]] [_ [Hidx _]]]. simpl.
    rewrite Hi in Hidx. injection Hidx as ->. exact Hts. }
  rewrite Forall_forall in Hall.
  pose proof (Hall r1 Hin1) as H1. pose proof (Hall r2 Hin2) as H2. simpl in H1, H2.
  assert (Hdiff : (timestamp r2 - timestamp r1
                   == READING_DELTA * inject_Z (index r2 - index r1))%Q).
  { rewrite H1, H2. rewrite !inject_Z_sub. ring. }
  split; [exact Hdiff |]. split.
  - intros Heq. rewrite Heq, Z.sub_diag in Hdiff.
    change (inject_Z 0) with 0%Q in Hdiff. lra.
  - intros Hlt.
    pose proof (delta_times_pos (z := index r2 - index r1) ltac:(lia)) as Hpos. lra.
Qed.

(** * Further properties of the session *)

(** ** [connect] when the transport rejects nothing *)





(** ** What asynchronous functions leave alone *)

Lemma keeps_ret {A B : Type} (part : World -> B) (a : A) : keeps part (ret a).
Proof. intros t n w. reflexivity. Qed.

Lemma keeps_throw {A B : Type} (part : World -> B) (e : Error) : keeps part (@throw A e).
Proof. intros t n w. reflexivity. Qed.

Lemma keeps_gets {A B : Type} (part : World -> B) (f : MuseClient -> A) :
  keeps part (gets f).
Proof. intros t n w. reflexivity. Qed.

Lemma keeps_await {X B : Type} (part : World -> B) (op : Op X) : keeps part (await op).
Proof. intros t n w. reflexivity. Qed.

Lemma keeps_modify {B : Type} (part : World -> B) (f : MuseClient -> MuseClient) :
  (forall w, part (with_client w (f (client w))) = part w) -> keeps part (modify f).
Proof. intros Hf t n w. simpl. apply Hf. Qed.

Lemma keeps_bind {A B C : Type} (part : World -> C) (m : Task A) (f : A -> Task B) :
  keeps part m -> (forall a, keeps part (f a)) -> keeps part (bind m f).
Proof.
  intros Hm Hf t n w. unfold bind. rewrite exec_bindRun.
  specialize (Hm t n w). destruct (exec t n (m w)) as [[tr1 res1] w1]. simpl in Hm.
  destruct res1 as [e | a]; [exact Hm |].
  specialize (Hf a t (n + Nat.div2 (List.length tr1))%nat w1).
  destruct (exec t _ (f a w1)) as [[tr2 res2] w2]. simpl in *. congruence.
Qed.

Lemma keeps_deref {A B : Type} (part : World -> B) (f : MuseClient -> option A) :
  keeps part (deref f).
Proof.
  unfold deref. apply keeps_bind; [apply keeps_gets |].
  intros [a |]; [apply keeps_ret | apply keeps_throw].
Qed.

Lemma keeps_subscribeDisconnected {B : Type} (part : World -> B) :
  (forall w d, part {| client := client w; listeners := listeners w ++ [d];
                       disconnectCalls := disconnectCalls w |} = part w) ->
  keeps part subscribeDisconnected.
Proof.
  intros Hpart. unfold subscribeDisconnected. apply keeps_bind; [apply keeps_deref |].
  intros g t n w. simpl. apply Hpart.
Qed.

Lemma keeps_bindElectrodes {B : Type} (part : World -> B)
    (service : BluetoothRemoteGATTService) (channels : list nat) :
  (forall w l, part (with_client w (set_eegCharacteristics (client w) l)) = part w) ->
  forall eegObservables : list Observable,
    keeps part (bindElectrodes service channels eegObservables).
Proof.
  intros Hpart.
  induction channels as [| channelIndex channels IH]; intros eegObservables; simpl.
  - apply keeps_ret.
  - apply keeps_bind.
    { destruct (nth_error EEG_CHARACTERISTICS channelIndex);
        [apply keeps_ret | apply keeps_throw]. }
    intros characteristicId. apply keeps_bind; [apply keeps_await |].
    intros eegChar. apply keeps_bind; [apply keeps_await |].
    intros o. apply keeps_bind; [apply keeps_modify; intros w; apply Hpart |].
    intros _. apply IH.
Qed.

Ltac keeps_task :=
  repeat first [ apply keeps_ret | apply keeps_throw | apply keeps_gets
               | apply keeps_await | apply keeps_deref
               | apply keeps_subscribeDisconnected; reflexivity
               | apply keeps_bindElectrodes; reflexivity
               | apply keeps_modify; reflexivity
               | apply keeps_bind; [ | intros ? ] ].

Lemma connect_keeps (g : option BluetoothRemoteGATTServer) :
  keeps sessionIndependent (connect g).
Proof.
  unfold connect. apply keeps_bind; [destruct g; keeps_task | intros ?]. keeps_task.
Qed.

(** Whatever the transport does and whether it returns or fails, [connect]
    leaves [lastIndex], [lastTimestamp] and [enableAux] as they were and
    never calls [gatt.disconnect()]: a new session starts with the
    sequencing fields the previous one left. *)
Theorem connect_keeps_sequencing_fields
    (t : Transport) (n : nat) (g : option BluetoothRemoteGATTServer) (w : World) :
  lastIndex (client (snd (exec t n (connect g w)))) = lastIndex (client w)
  /\ lastTimestamp (client (snd (exec t n (connect g w)))) = lastTimestamp (client w)
  /\ enableAux (client (snd (exec t n (connect g w)))) = enableAux (client w)
  /\ disconnectCalls (snd (exec t n (connect g w))) = disconnectCalls w.
Proof.
  pose proof (connect_keeps g t n w) as H. unfold sessionIndependent in H.
  injection H as H1 H2 H3 H4. repeat split; assumption.
Qed.

(** ** Commands *)

(** On a client whose control characteristic is not bound (never
    connected), [sendCommand] and [start] fail with a [TypeError] before
    anything is written, and change nothing. *)
Theorem commands_need_control_characteristic
    (encodeCommand : string -> list Byte.byte) (t : Transport) (n : nat)
    (w : World) (cmd : string) :
  controlChar (client w) = None ->
  exec t n (sendCommand encodeCommand cmd w) = ([], inl TypeError, w)
  /\ exec t n (start encodeCommand w) = ([], inl TypeError, w).
Proof.
  intros Hch.
  unfold start, pause, resume, sendCommand, deref, bind, gets, await, ret, throw.
  simpl. rewrite Hch. simpl. split; reflexivity.
Qed.

(** [start] on a connected client, whatever the transport does: it writes a
    prefix of [h], [p20], [s], [d], at least the first; it returns exactly
    when no write was rejected; a rejected write is the last thing it did;
    and it changes nothing in the client. *)
Theorem start_stops_at_first_rejection
    (encodeCommand : string -> list Byte.byte) (t : Transport) (n : nat)
    (w : World) (ch : BluetoothRemoteGATTCharacteristic) :
  controlChar (client w) = Some ch ->
  (exists k : nat,
      (1 <= k <= 4)%nat
      /\ issuedWrites (fst (fst (exec t n (start encodeCommand w))))
         = firstn k [encodeCommand "h"; encodeCommand "p20";
                     encodeCommand "s"; encodeCommand "d"]
      /\ List.length (fst (fst (exec t n (start encodeCommand w)))) = (2 * k)%nat)
  /\ (snd (fst (exec t n (start encodeCommand w))) = inr tt
      <-> allResolved (fst (fst (exec t n (start encodeCommand w)))) = true)
  /\ allResolved (removelast (fst (fst (exec t n (start encodeCommand w))))) = true
  /\ snd (exec t n (start encodeCommand w)) = w.
Proof.
  intros Hch.
  unfold start, pause, resume, sendCommand, deref, bind, gets, await, ret, throw.
  simpl. rewrite Hch. simpl.
  destruct (t n unit (writeValue ch (encodeCommand "h"))) as [e1 | []]; simpl.
  { split; [exists 1%nat; repeat split; lia |].
    split; [split; discriminate |]. split; reflexivity. }
  rewrite Hch. simpl.
  destruct (t (S n) unit (writeValue ch (encodeCommand "p20"))) as [e2 | []]; simpl.
  { split; [exists 2%nat; repeat split; lia |].
    split; [split; discriminate |]. split; reflexivity. }
  rewrite Hch. simpl.
  destruct (t (S (S n)) unit (writeValue ch (encodeCommand "s"))) as [e3 | []]; simpl.
  { split; [exists 3%nat; repeat split; lia |].
    split; [split; discriminate |]. split; reflexivity. }
  rewrite Hch. simpl.
  destruct (t (S (S (S n))) unit (writeValue ch (encodeCommand "d"))) as [e4 | []]; simpl.
  { split; [exists 4%nat; repeat split; lia |].
    split; [split; discriminate |]. split; reflexivity. }
  split; [exists 4%nat; repeat split; lia |].
  split; [split; reflexivity |]. split; reflexivity.
Qed.

(** ** The transport's disconnect event *)

Lemma handlers_not_armed (d : BluetoothDevice) (ls : list BluetoothDevice) :
  forall c : MuseClient,
    filter (same_device d) ls = [] ->
    fold_left (fun c l => if same_device d l then onGattServerDisconnected c else c) ls c = c.
Proof.
  induction ls as [| l ls IH]; intros c Hnone; simpl in *; [reflexivity |].
  destruct (same_device d l); [discriminate Hnone | apply IH; exact Hnone].
Qed.

Lemma filter_complement {A : Type} (f : A -> bool) (l : list A) :
  filter f (filter (fun a => negb (f a)) l) = [].
Proof.
  induction l as [| a l IH]; simpl; [reflexivity |].
  destruct (f a) eqn:E; simpl; [exact IH | rewrite E; exact IH].
Qed.

Lemma filter_not_armed {A : Type} (f : A -> bool) (l : list A) :
  filter f l = [] -> filter (fun a => negb (f a)) l = l.
Proof.
  induction l as [| a l IH]; simpl; [reflexivity |].
  destruct (f a); simpl; [discriminate | intros H; rewrite IH by exact H; reflexivity].
Qed.

Lemma handlers_emit (d : BluetoothDevice) (ls : list BluetoothDevice) :
  forall c : MuseClient,
    let c' := fold_left (fun c l => if same_device d l then onGattServerDisconnected c else c)
                        ls c in
    emitted (connectionStatus c')
    = emitted (connectionStatus c)
      ++ repeat false (List.length (filter (same_device d) ls))
    /\ (filter (same_device d) ls <> [] ->
        gatt c' = None /\ value (connectionStatus c') = false).
Proof.
  induction ls as [| l ls IH]; intros c; simpl.
  - split; [rewrite app_nil_r; reflexivity | intros H; contradiction].
  - destruct (same_device d l) eqn:E.
    + destruct (IH (onGattServerDisconnected c)) as [Hem Hg]. simpl in Hem |- *.
      split.
      * rewrite Hem. simpl. rewrite <- app_assoc. reflexivity.
      * intros _. destruct (filter (same_device d) ls) as [| l' ls'] eqn:Ef.
        -- rewrite (handlers_not_armed d ls _ Ef). split; reflexivity.
        -- apply Hg. discriminate.
    + apply IH.
Qed.

(** The subscription is one-shot: the event dispatched a second time on the
    same device does nothing. *)
Theorem gattserverdisconnected_fires_once (d : BluetoothDevice) (w : World) :
  gattserverdisconnected d (gattserverdisconnected d w) = gattserverdisconnected d w.
Proof.
  unfold gattserverdisconnected. simpl.
  rewrite (handlers_not_armed d _ _ (filter_complement (same_device d) (listeners w))).
  rewrite (filter_not_armed _ _ (filter_complement (same_device d) (listeners w))).
  reflexivity.
Qed.

(** The event on device [d] emits [false] once for every subscription armed
    on [d], that is once for every [connect] to [d] since the last event,
    and then clears [gatt], whichever server the client holds; with no
    subscription on [d] it changes nothing. *)
Theorem gattserverdisconnected_emits_per_subscription (d : BluetoothDevice) (w : World) :
  emitted (connectionStatus (client (gattserverdisconnected d w)))
  = emitted (connectionStatus (client w)) ++ repeat false (armedOn d w)
  /\ armedOn d (gattserverdisconnected d w) = 0%nat
  /\ (armedOn d w = 0%nat -> gattserverdisconnected d w = w)
  /\ ((0 < armedOn d w)%nat ->
      gatt (client (gattserverdisconnected d w)) = None
      /\ value (connectionStatus (client (gattserverdisconnected d w))) = false).
Proof.
  unfold armedOn, gattserverdisconnected. simpl.
  destruct (handlers_emit d (listeners w) (client w)) as [Hem Hg].
  split; [exact Hem |]. split; [rewrite filter_complement; reflexivity |]. split.
  - intros Hnone. apply length_zero_iff_nil in Hnone.
    rewrite (handlers_not_armed d _ _ Hnone), (filter_not_armed _ _ Hnone).
    destruct w; reflexivity.
  - intros Hpos. apply Hg. intros Hnil. rewrite Hnil in Hpos. simpl in Hpos. lia.
Qed.

(** ** [disconnect] *)

(** [disconnect()] on a client that holds a server: it calls
    [gatt.disconnect()] once on that server, clears both sequencing fields
    and leaves [connectionStatus] at [false]; it emits [false] itself, after
    one [false] per armed subscription when the transport dispatches its
    event from inside the call; and unless that event clears it, [gatt] is
    still held afterwards. *)
Theorem disconnect_effects (dispatch : bool) (w : World) (g : BluetoothRemoteGATTServer) :
  gatt (client w) = Some g ->
  disconnectCalls (disconnect dispatch w) = disconnectCalls w ++ [g]
  /\ lastIndex (client (disconnect dispatch w)) = None
  /\ lastTimestamp (client (disconnect dispatch w)) = None
  /\ value (connectionStatus (client (disconnect dispatch w))) = false
  /\ emitted (connectionStatus (client (disconnect dispatch w)))
     = emitted (connectionStatus (client w))
       ++ repeat false (if dispatch then armedOn (device g) w else 0%nat) ++ [false]
  /\ (dispatch = false -> gatt (client (disconnect dispatch w)) = Some g).
Proof.
  intros Hg.
  destruct (disconnect_resets_sequence dispatch w) as [Hi Ht]; [rewrite Hg; discriminate |].
  split; [| split; [exact Hi | split; [exact Ht |]]].
  - unfold disconnect. rewrite Hg. destruct dispatch; reflexivity.
  - unfold disconnect. rewrite Hg. destruct dispatch; simpl.
    + destruct (handlers_emit (device g) (listeners w)
                  (set_sequence (client w) None None)) as [Hem _].
      simpl in Hem. split; [reflexivity |]. split; [| discriminate].
      rewrite Hem. unfold armedOn. rewrite <- app_assoc. reflexivity.
    + split; [reflexivity |]. split; [reflexivity |]. intros _. exact Hg.
Qed.

(** After [disconnect()], the first group of the next session is stamped
    from the clock: one interval before the clock reading of its arrival,
    whatever its index and whatever the previous session stored. *)
Theorem disconnect_then_first_group_is_stamped_from_clock
    (dispatch : bool) (w : World) (now ev : Z) :
  gatt (client w) <> None ->
  fst (getTimestamp now ev (client (disconnect dispatch w)))
  = (inject_Z now - READING_DELTA)%Q
  /\ lastIndex (snd (getTimestamp now ev (client (disconnect dispatch w)))) = Some ev
  /\ lastTimestamp (snd (getTimestamp now ev (client (disconnect dispatch w))))
     = Some (inject_Z now - READING_DELTA)%Q.
Proof.
  intros Hg. destruct (disconnect_resets_sequence dispatch w Hg) as [Hi _].
  rewrite (getTimestamp_unseeded now ev _ (or_introl Hi)).
  repeat split.
Qed.


(** ** A failed [connect] is not undone *)

Lemma exec_bind_modify {A : Type} (t : Transport) (n : nat)
    (f : MuseClient -> MuseClient) (k : unit -> Task A) (w : World) :
  exec t n (bind (modify f) k w) = exec t n (k tt (with_client w (f (client w)))).
Proof. reflexivity. Qed.

Lemma exec_bind_deref {A B : Type} (t : Transport) (n : nat)
    (f : MuseClient -> option A) (k : A -> Task B) (w : World) (a : A) :
  f (client w) = Some a ->
  exec t n (bind (deref f) k w) = exec t n (k a w).
Proof.
  intros H. unfold deref, bind, gets. simpl. rewrite H. reflexivity.
Qed.

Lemma execWith_noEvents {A : Type} (t : Transport) (events : nat -> list BluetoothDevice)
    (r : Run A) :
  (forall k, events k = []) ->
  forall n : nat, execWith t events n r = exec t n r.
Proof.
  intros Hnone. induction r as [res w | X op w k IH]; intros n; simpl.
  - reflexivity.
  - rewrite (Hnone n). simpl. rewrite IH. reflexivity.
Qed.

(** In a run of [connect(gatt)] during which the transport dispatches no
    [gattserverdisconnected] event, the client afterwards holds the given
    server and the name of its device whether [connect] returned or failed:
    it stores them before its first [await] and never takes them back
    itself, so after a failed [connect] the client holds a server although
    [true] was never emitted. *)
Theorem connect_holds_server_when_no_event_fires
    (t : Transport) (events : nat -> list BluetoothDevice) (n : nat)
    (g : BluetoothRemoteGATTServer) (w : World) :
  (forall k, events k = []) ->
  gatt (client (snd (execWith t events n (connect (Some g) w)))) = Some g
  /\ deviceName (client (snd (execWith t events n (connect (Some g) w))))
     = nameOrNull (name (device g)).
Proof.
  intros Hnone. rewrite (execWith_noEvents t events _ Hnone).
  unfold connect.
  rewrite exec_bind_modify.
  rewrite exec_bind_deref with (a := g) by reflexivity.
  rewrite exec_bind_modify.
  match goal with
  | |- context [exec t n (?m ?w')] =>
      assert (K : keeps (fun w0 => (gatt (client w0), deviceName (client w0))) m)
        by keeps_task;
      specialize (K t n w')
  end.
  simpl in K. injection K as Hg Hn. split; assumption.
Qed.

(** The condition is needed: when the device drops while the second
    operation is pending and that operation is rejected, the subscriber
    armed by [connect] has cleared [gatt] and emitted [false] by the time
    [connect] fails. *)
Lemma connect_dropped_midway_loses_server :
  snd (fst (execWith secondAwaitFails dropsDuringSecondAwait 0
              (connect (Some museGatt) (newWorld newMuseClient))))
    = inl "NetworkError"
  /\ gatt (client (snd (execWith secondAwaitFails dropsDuringSecondAwait 0
                          (connect (Some museGatt) (newWorld newMuseClient)))))
     = None
  /\ emitted (connectionStatus
       (client (snd (execWith secondAwaitFails dropsDuringSecondAwait 0
                       (connect (Some museGatt) (newWorld newMuseClient))))))
     = [false].
Proof. vm_compute. repeat split. Qed.

(** * The tolerance boundary *)

(** The boundary of the tolerance: an index exactly 0x1000 behind the
    stored one is late (stamped 0x1000 intervals back, nothing stored); an
    index 0x1001 behind is taken for a wrap-around (unwrapped by 0x10000,
    stamped 0xEFFF intervals ahead, and stored). *)
Theorem tolerance_boundary (now ev : Z) (c : MuseClient) (li : Z) (lt : Q) :
  seeded c li lt ->
  (li - ev = 0x1000 ->
     getTimestamp now ev c = ((lt - READING_DELTA * inject_Z 0x1000)%Q, c))
  /\ (li - ev = 0x1001 ->
     getTimestamp now ev c
     = ((lt + READING_DELTA * inject_Z 0xEFFF)%Q,
        set_sequence c (Some (ev + 0x10000))
                       (Some (lt + READING_DELTA * inject_Z 0xEFFF)%Q))).
Proof.
  intros Hs. rewrite (getTimestamp_seeded now ev Hs). cbv zeta. split; intros Hd.
  - rewrite unwrap_noop by lia.
    destruct (ev =? li) eqn:Eeq; [apply Z.eqb_eq in Eeq; lia |].
    destruct (ev >? li) eqn:Egt; [lia |].
    rewrite Hd. reflexivity.
  - rewrite unwrap_step by lia. rewrite unwrap_noop by lia.
    destruct (ev + 65536 =? li) eqn:Eeq; [apply Z.eqb_eq in Eeq; lia |].
    destruct (ev + 65536 >? li) eqn:Egt; [| lia].
    replace (ev + 65536 - li) with 0xEFFF by lia. reflexivity.
Qed.

(** * The further properties at concrete inputs *)

Lemma timestamps_follow_group_numbers_example :
  trackable 65530 [65531; 65538; 65537]
  /\ (nth 1 (fst (getTimestamps
                    (combine [0; 0; 0]%Z (map wireIndex [65531; 65538; 65537]%Z))
                    (streamingClient 65530 1000))) 0%Q
      == 1000 + READING_DELTA * inject_Z (65538 - 65530))%Q.
Proof.
  assert (Ht : trackable 65530 [65531; 65538; 65537]) by (cbn; repeat split; lia).
  split; [exact Ht |].
  apply (@timestamps_follow_group_numbers [65531; 65538; 65537] [0; 0; 0]
           (streamingClient 65530 1000) 65530 1000 1%nat
           (conj eq_refl eq_refl) Ht eq_refl).
  simpl. lia.
Defined.

Lemma consecutive_groups_evenly_spaced_example :
  (nth 3 (fst (getTimestamps
                 (combine [1000; 1050; 1100; 1150]%Z
                          (map wireIndex (consecutive 65534 4))) newMuseClient)) 0%Q
   == inject_Z 1000 - READING_DELTA + READING_DELTA * inject_Z 3)%Q.
Proof.
  apply (@consecutive_groups_evenly_spaced 65534 1000 [1050; 1100; 1150]
           newMuseClient 3%nat eq_refl); [lia | simpl; lia].
Defined.

Lemma eegStream_one_reading_per_notification_example :
  List.length (fst (eegStream noSamples crossTalk newMuseClient)) = 2%nat
  /\ map electrode (fst (eegStream noSamples crossTalk newMuseClient)) = [1%nat; 0%nat].
Proof.
  destruct (@eegStream_one_reading_per_notification noSamples crossTalk newMuseClient)
    as [Hlen [Hel _]].
  - unfold crossTalk. repeat constructor.
  - split; [exact Hlen | exact Hel].
Defined.

Lemma same_group_same_timestamp_example :
  let rs := fst (eegStream noSamples inStep newMuseClient) in
  (timestamp (nth 3 rs blankReading) - timestamp (nth 1 rs blankReading)
   == READING_DELTA * inject_Z (index (nth 3 rs blankReading) - index (nth 1 rs blankReading)))%Q
  /\ (index (nth 0 rs blankReading) = index (nth 1 rs blankReading) ->
      (timestamp (nth 0 rs blankReading) == timestamp (nth 1 rs blankReading))%Q).
Proof.
  intros rs.
  assert (Hc : forall (li : Z) (lt : Q),
             seeded newMuseClient li lt -> 10 <= li <= 10 + 0x1000)
    by (intros li lt [H _]; discriminate H).
  assert (Hw : Forall (inWindow 10) inStep).
  { unfold inStep.
    repeat (constructor; [eexists; split; [reflexivity | simpl; lia] |]).
    constructor. }
  assert (H0 : In (nth 0 rs blankReading) rs) by (vm_compute; left; reflexivity).
  assert (H1 : In (nth 1 rs blankReading) rs) by (vm_compute; right; left; reflexivity).
  assert (H3 : In (nth 3 rs blankReading) rs)
    by (vm_compute; right; right; right; left; reflexivity).
  split.
  - exact (proj1 (@same_group_same_timestamp noSamples inStep newMuseClient 10
                    (nth 1 rs blankReading) (nth 3 rs blankReading) Hc Hw H1 H3)).
  - exact (proj1 (proj2 (@same_group_same_timestamp noSamples inStep newMuseClient 10
                    (nth 0 rs blankReading) (nth 1 rs blankReading) Hc Hw H0 H1))).
Defined.


Lemma commands_need_control_characteristic_example :
  exec okTransport 0 (sendCommand asciiCommand "v1" (newWorld newMuseClient))
    = ([], inl TypeError, newWorld newMuseClient)
  /\ exec okTransport 0 (start asciiCommand (newWorld newMuseClient))
    = ([], inl TypeError, newWorld newMuseClient).
Proof.
  exact (@commands_need_control_characteristic asciiCommand okTransport 0
           (newWorld newMuseClient) "v1" eq_refl).
Defined.

Lemma start_stops_at_first_rejection_example :
  controlChar (client connectedWorld) = Some {| uuid := CONTROL_CHARACTERISTIC |}
  /\ (snd (fst (exec thirdAwaitFails 0 (start asciiCommand connectedWorld))) = inr tt
      <-> allResolved (fst (fst (exec thirdAwaitFails 0 (start asciiCommand connectedWorld))))
          = true)
  /\ snd (exec thirdAwaitFails 0 (start asciiCommand connectedWorld)) = connectedWorld.
Proof.
  assert (Hch : controlChar (client connectedWorld)
                = Some {| uuid := CONTROL_CHARACTERISTIC |})
    by (vm_compute; reflexivity).
  destruct (@start_stops_at_first_rejection asciiCommand thirdAwaitFails 0
              connectedWorld {| uuid := CONTROL_CHARACTERISTIC |} Hch)
    as [_ [Hiff [_ Hw]]].
  split; [exact Hch |]. split; [exact Hiff | exact Hw].
Defined.

Lemma disconnect_effects_example :
  gatt (client connectedWorld) = Some museGatt
  /\ disconnectCalls (disconnect true connectedWorld)
     = disconnectCalls connectedWorld ++ [museGatt]
  /\ value (connectionStatus (client (disconnect true connectedWorld))) = false.
Proof.
  assert (Hg : gatt (client connectedWorld) = Some museGatt) by (vm_compute; reflexivity).
  destruct (@disconnect_effects true connectedWorld museGatt Hg)
    as [Hcalls [_ [_ [Hval _]]]].
  split; [exact Hg |]. split; [exact Hcalls | exact Hval].
Defined.

Lemma disconnect_then_first_group_is_stamped_from_clock_example :
  fst (getTimestamp 2000 77 (client (disconnect false streamingWorld)))
  = (inject_Z 2000 - READING_DELTA)%Q.
Proof.
  refine (proj1 (@disconnect_then_first_group_is_stamped_from_clock
                   false streamingWorld 2000 77 _)).
  vm_compute. discriminate.
Defined.


Lemma tolerance_boundary_example :
  getTimestamp 0 904 (streamingClient 5000 1000)
  = ((1000 - READING_DELTA * inject_Z 0x1000)%Q, streamingClient 5000 1000)
  /\ lastIndex (snd (getTimestamp 0 903 (streamingClient 5000 1000))) = Some 66439.
Proof.
  destruct (@tolerance_boundary 0 904 (streamingClient 5000 1000) 5000 1000
              (conj eq_refl eq_refl)) as [Hlate _].
  destruct (@tolerance_boundary 0 903 (streamingClient 5000 1000) 5000 1000
              (conj eq_refl eq_refl)) as [_ Hwrap].
  split; [apply Hlate; reflexivity |].
  rewrite Hwrap by reflexivity. reflexivity.
Defined.

Lemma connect_holds_server_when_no_event_fires_example :
  (forall k, noEvents k = [])
  /\ gatt (client (snd (execWith noTelemetryTransport noEvents 0
                          (connect (Some museGatt) (newWorld newMuseClient)))))
     = Some museGatt
  /\ deviceName (client (snd (execWith noTelemetryTransport noEvents 0
                                (connect (Some museGatt) (newWorld newMuseClient)))))
     = nameOrNull (name (device museGatt)).
Proof.
  assert (Hnone : forall k, noEvents k = []) by (intros k; reflexivity).
  split; [exact Hnone |].
  exact (@connect_holds_server_when_no_event_fires noTelemetryTransport noEvents 0
           museGatt (newWorld newMuseClient) Hnone).
Defined.

Lemma shared_sequence_of_trackable_groups_example :
  startsFrom (streamingClient 0xFFF0 1000) 0 acrossWrap 0xFFF0
  /\ Forall carries acrossWrap
  /\ trackable 0xFFF0 (map snd acrossWrap)
  /\ trackable 0xFFF0 (map snd (filter (onChannel 0) acrossWrap))
  /\ Forall2 Qeq
       (timestampsOf 0
          (fst (eegStream noSamples (map fst acrossWrap) (streamingClient 0xFFF0 1000))))
       (timestampsOf 0
          (fst (eegStream noSamples (eventsOf 0 (map fst acrossWrap))
                  (streamingClient 0xFFF0 1000))))
  /\ List.length
       (timestampsOf 0
          (fst (eegStream noSamples (map fst acrossWrap) (streamingClient 0xFFF0 1000))))
     = List.length (eventsOf 0 (map fst acrossWrap)).
Proof.
  assert (Hs : startsFrom (streamingClient 0xFFF0 1000) 0 acrossWrap 0xFFF0)
    by (left; exists 1000%Q; split; reflexivity).
  assert (Hc : Forall carries acrossWrap)
    by (unfold acrossWrap; repeat (constructor; [reflexivity |]); constructor).
  assert (Hall : trackable 0xFFF0 (map snd acrossWrap))
    by (cbn; repeat split; lia).
  assert (Hown : trackable 0xFFF0 (map snd (filter (onChannel 0) acrossWrap)))
    by (cbn; repeat split; lia).
  split; [exact Hs |]. split; [exact Hc |]. split; [exact Hall |]. split; [exact Hown |].
  exact (@shared_sequence_of_trackable_groups noSamples (streamingClient 0xFFF0 1000)
           0xFFF0 acrossWrap 0%nat Hs Hc Hall Hown).
Defined.
